(** * firstapi: a shallow embedding of [you.py]

    The Flask service of [you.py] takes a media URL, asks yt-dlp for the
    metadata of the page, picks the best audio or video stream and
    answers with a JSON document.  This file embeds the request handlers
    [download] and [get_info] and the helper [extract_info] and proves
    the properties the specification states about them.

    Modelling conventions.
    - Python values are dynamically typed: [atom] holds the scalars,
      [pyval] adds lists and string-keyed dicts ([gmap string pyval]).
      Numbers are unbounded integers, as Python's [int]; floating-point
      numbers are outside the model.
    - Strings are byte strings.  [str.lower] is modelled on the ASCII
      range, which decides membership in ["audio"; "video"] the same way
      as Python's Unicode lowering (no character outside ASCII lowers to
      one of the letters of these two words).
    - An exception is its class and its [str()] text.  A computation
      returns a value or raises, and threads the list of URLs that were
      handed to yt-dlp, so that "was the extractor called" is a
      statement about that list.
    - yt-dlp itself, the web framework's parsing of the request, and the
      environment variable [API_KEY] are inputs of the model.  A format
      entry of yt-dlp is a flat dict of scalars.
    - The rate limiter and the CORS layer that wrap the handlers are
      middleware of the framework and are not part of the model.
    - The [logger] calls write to a log file only and are left out. *)

From Stdlib Require Import ZArith String Ascii Lia.
From stdpp Require Import gmap strings list fin_maps.

(** ** Python values *)

Inductive atom :=
| ANone
| ABool (b : bool)
| AInt (z : Z)
| AStr (s : string).

#[export] Instance atom_eq_dec : EqDecision atom.
Proof. solve_decision. Defined.

#[warnings="-register-all"]
Inductive pyval :=
| PAtom (a : atom)
| PList (l : list pyval)
| PDict (d : gmap string pyval).

Coercion PAtom : atom >-> pyval.

(** A dict display [{k1: v1, ...}] with distinct keys. *)
Definition py_dict {V : Type} (items : list (string * V)) : gmap string V :=
  list_to_map items.

(** [type(v).__name__], as it appears in the interpreter's messages. *)
Definition atom_type_name (a : atom) : string :=
  match a with
  | ANone => "NoneType"
  | ABool _ => "bool"
  | AInt _ => "int"
  | AStr _ => "str"
  end.

Definition type_name (v : pyval) : string :=
  match v with
  | PAtom a => atom_type_name a
  | PList _ => "list"
  | PDict _ => "dict"
  end.

(** Truth value testing: [None], [False], [0], [""], [[]] and [{}] are
    false, everything else is true. *)
Definition atom_truthy (a : atom) : bool :=
  match a with
  | ANone => false
  | ABool b => b
  | AInt z => negb (z =? 0)%Z
  | AStr s => negb (String.eqb s "")
  end.

Definition truthy (v : pyval) : bool :=
  match v with
  | PAtom a => atom_truthy a
  | PList l => match l with [] => false | _ => true end
  | PDict d => negb (bool_decide (d = ∅))
  end.

(** [bool] is a subclass of [int]: both take part in numeric comparisons. *)
Definition atom_num (a : atom) : option Z :=
  match a with
  | ABool b => Some (Z.b2z b)
  | AInt z => Some z
  | _ => None
  end.

(** [a == b] on scalars; it never raises. *)
Definition atom_eq (a b : atom) : bool :=
  match a, b with
  | ANone, ANone => true
  | AStr s, AStr t => String.eqb s t
  | _, _ =>
      match atom_num a, atom_num b with
      | Some x, Some y => (x =? y)%Z
      | _, _ => false
      end
  end.

(** ** Exceptions and computations *)

Inductive exn_class :=
| ValueError
| TypeError
| AttributeError
| KeyError
| OtherException.   (* any class that is not a [ValueError] *)

Record exn := mk_exn { exn_cls : exn_class; exn_str : string }.

Definition is_ValueError (e : exn) : bool :=
  match exn_cls e with ValueError => true | _ => false end.

Inductive outcome (A : Type) :=
| Return (a : A)
| Raise (e : exn).
Arguments Return {A} a.
Arguments Raise {A} e.

(** The state is the list of the URL arguments passed to yt-dlp so far,
    oldest first. *)
Definition io (A : Type) : Type := list pyval → outcome A * list pyval.

Definition raise {A} (e : exn) : io A := λ t, (Raise e, t).
Definition lift {A} (o : outcome A) : io A := λ t, (o, t).

#[export] Instance io_ret : MRet io := λ A a t, (Return a, t).

(** Sequencing stops at the first exception. *)
#[export] Instance io_bind : MBind io := λ A B k m t,
  match m t with
  | (Return a, t') => k a t'
  | (Raise e, t') => (Raise e, t')
  end.

#[export] Instance outcome_ret : MRet outcome := λ A a, Return a.

#[export] Instance outcome_bind : MBind outcome := λ A B k o,
  match o with
  | Return a => k a
  | Raise e => Raise e
  end.

(** [try: body except Exception as e: handler e] *)
Definition try_except {A} (body : io A) (handler : exn → io A) : io A :=
  λ t, match body t with
       | (Return a, t') => (Return a, t')
       | (Raise e, t') => handler e t'
       end.

(** ** Operations on values that can raise *)

Definition attribute_error (v : pyval) (attr : string) : exn :=
  mk_exn AttributeError
    ("'" +:+ type_name v +:+ "' object has no attribute '" +:+ attr +:+ "'").

(** [v.get(k, dflt)]: only dicts have the method. *)
Definition py_get (v : pyval) (k : string) (dflt : pyval) : outcome pyval :=
  match v with
  | PDict d => Return (default dflt (d !! k))
  | _ => Raise (attribute_error v "get")
  end.

Definition ascii_lower (c : ascii) : ascii :=
  let n := nat_of_ascii c in
  if (65 <=? n)%nat && (n <=? 90)%nat then ascii_of_nat (n + 32) else c.

Fixpoint str_lower (s : string) : string :=
  match s with
  | EmptyString => EmptyString
  | String c s' => String (ascii_lower c) (str_lower s')
  end.

(** [v.lower()] *)
Definition py_lower (v : pyval) : outcome string :=
  match v with
  | PAtom (AStr s) => Return (str_lower s)
  | _ => Raise (attribute_error v "lower")
  end.

(** [v.startswith(prefixes)] with a tuple of prefixes. *)
Definition py_startswith (v : pyval) (prefixes : list string) : outcome bool :=
  match v with
  | PAtom (AStr s) => Return (existsb (λ p, String.prefix p s) prefixes)
  | _ => Raise (attribute_error v "startswith")
  end.

Definition not_supported (op : string) (a b : atom) : exn :=
  mk_exn TypeError
    ("'" +:+ op +:+ "' not supported between instances of '"
     +:+ atom_type_name a +:+ "' and '" +:+ atom_type_name b +:+ "'").

(** [a > b] on scalars: numbers with numbers, strings with strings;
    every other pairing, [None > None] included, is a [TypeError]. *)
Definition atom_gt (a b : atom) : outcome bool :=
  match atom_num a, atom_num b with
  | Some x, Some y => Return (y <? x)%Z
  | _, _ =>
      match a, b with
      | AStr s, AStr t => Return (String.ltb t s)
      | _, _ => Raise (not_supported ">" a b)
      end
  end.

(** [(a1, a2) > (b1, b2)]: the first position where the two tuples are
    not [==] is compared with [>]; equal tuples are not greater. *)
Definition pair_gt (a b : atom * atom) : outcome bool :=
  if negb (atom_eq a.1 b.1) then atom_gt a.1 b.1
  else if negb (atom_eq a.2 b.2) then atom_gt a.2 b.2
  else Return false.

(** [max(l, key=key)]: a left-to-right scan that replaces the running
    maximum only when the new key is strictly greater. *)
Section py_max.
Context {A K : Type} (key : A → K) (gt : K → K → outcome bool).

Fixpoint max_scan (maxitem : A) (maxval : K) (rest : list A) : outcome A :=
  match rest with
  | [] => Return maxitem
  | item :: rest' =>
      match gt (key item) maxval with
      | Raise e => Raise e
      | Return true => max_scan item (key item) rest'
      | Return false => max_scan maxitem maxval rest'
      end
  end.

Definition py_max (l : list A) : outcome A :=
  match l with
  | [] => Raise (mk_exn ValueError "max() arg is an empty sequence")
  | x :: rest => max_scan x (key x) rest
  end.
End py_max.

(** ** What yt-dlp returns

    A format entry is a flat dict of scalars.  The info dict has the
    list of format entries under ["formats"] (the key can be absent) and
    its other keys in [info_fields]. *)

Record ydl_info := {
  info_formats : option (list (gmap string atom));
  info_fields : gmap string pyval
}.

(** [bool(info)]: a dict is true when it has a key. *)
Definition info_truthy (info : ydl_info) : bool :=
  match info_formats info with
  | Some _ => true
  | None => negb (bool_decide (info_fields info = ∅))
  end.

(** [info.get(k, dflt)] for the keys other than ["formats"]. *)
Definition info_get (info : ydl_info) (k : string) (dflt : pyval) : pyval :=
  default dflt (info_fields info !! k).

(** [f.get(k)] on a format entry or on a candidate. *)
Definition fget (f : gmap string atom) (k : string) : atom :=
  default ANone (f !! k).

(** [d[k]] *)
Definition py_index (d : gmap string atom) (k : string) : outcome atom :=
  match d !! k with
  | Some v => Return v
  | None => Raise (mk_exn KeyError ("'" +:+ k +:+ "'"))
  end.

Definition YDL_COMMON_OPTS : gmap string pyval :=
  py_dict [
    ("quiet", PAtom (ABool true));
    ("nocheckcertificate", PAtom (ABool true));
    ("noplaylist", PAtom (ABool true));
    ("extract_flat", PAtom (ABool false));
    ("skip_download", PAtom (ABool true));
    ("format", PAtom (AStr "bestvideo+bestaudio/best"));
    ("geo_bypass", PAtom (ABool true));
    ("ignoreerrors", PAtom (ABool true));
    ("no_warnings", PAtom (ABool true))
  ].

(** ** The format selector *)

Definition is_audio_only (f : gmap string atom) : bool :=
  negb (atom_eq (fget f "acodec") (AStr "none"))
  && atom_eq (fget f "vcodec") (AStr "none").

Definition audio_candidate (f : gmap string atom) : gmap string atom :=
  py_dict [
    ("format_id", fget f "format_id");
    ("ext", fget f "ext");
    ("filesize", fget f "filesize");
    ("asr", fget f "asr");
    ("url", fget f "url")
  ].

Definition is_muxed (f : gmap string atom) : bool :=
  negb (atom_eq (fget f "vcodec") (AStr "none"))
  && negb (atom_eq (fget f "acodec") (AStr "none")).

Definition video_candidate (f : gmap string atom) : gmap string atom :=
  py_dict [
    ("format_id", fget f "format_id");
    ("ext", fget f "ext");
    ("width", fget f "width");
    ("height", fget f "height");
    ("filesize", fget f "filesize");
    ("fps", fget f "fps");
    ("url", fget f "url")
  ].

(** The [for f in ...: if ...: formats.append({...})] loops. *)
Definition collect (keep : gmap string atom → bool)
    (build : gmap string atom → gmap string atom)
    (raw : list (gmap string atom)) : list (gmap string atom) :=
  foldl (λ formats f, if keep f then (formats ++ [build f])%list else formats)
    [] raw.

Definition audio_formats := collect is_audio_only audio_candidate.
Definition video_formats := collect is_muxed video_candidate.

(** [lambda x: x.get("asr", 0)] *)
Definition audio_key (x : gmap string atom) : atom :=
  default (AInt 0) (x !! "asr").

(** [lambda x: (x.get("height", 0), x.get("fps", 0))] *)
Definition video_key (x : gmap string atom) : atom * atom :=
  (default (AInt 0) (x !! "height"), default (AInt 0) (x !! "fps")).

(** [if formats: best_format = max(formats, key=...);
     selected_url = best_format["url"]], with [selected_url = None]
    before. *)
Definition select_url {K : Type} (key : gmap string atom → K)
    (gt : K → K → outcome bool) (formats : list (gmap string atom))
    : outcome atom :=
  match formats with
  | [] => Return ANone
  | _ =>
      best_format ← py_max key gt formats;
      py_index best_format "url"
  end.

Definition candidate_value (c : gmap string atom) : pyval :=
  PDict (PAtom <$> c).

(** The [if media_type == "audio": ... elif media_type == "video": ...
    else: raise ...] block of [extract_info]: the candidates it
    collects and the URL it selects ([None] when there is no candidate). *)
Definition format_selector (info : ydl_info) (media_type : string)
    : outcome (list (gmap string atom) * atom) :=
  if String.eqb media_type "audio" then
    let formats := audio_formats (default [] (info_formats info)) in
    selected_url ← select_url audio_key atom_gt formats;
    mret (formats, selected_url)
  else if String.eqb media_type "video" then
    let formats := video_formats (default [] (info_formats info)) in
    selected_url ← select_url video_key pair_gt formats;
    mret (formats, selected_url)
  else
    Raise (mk_exn ValueError "Invalid media type").

(** The dict that [extract_info] returns. *)
Definition media_result (info : ydl_info) (media_type : string)
    (selected_url : atom) (formats : list (gmap string atom))
    : gmap string pyval :=
  py_dict [
    ("title", info_get info "title" ANone);
    ("id", info_get info "id" ANone);
    ("duration", info_get info "duration" ANone);
    ("duration_string", info_get info "duration_string" ANone);
    ("uploader", info_get info "uploader" ANone);
    ("channel_url", info_get info "channel_url" ANone);
    ("thumbnail", info_get info "thumbnail" ANone);
    ("description", info_get info "description" ANone);
    ("tags", info_get info "tags" (PList []));
    ("categories", info_get info "categories" (PList []));
    ("view_count", info_get info "view_count" ANone);
    ("like_count", info_get info "like_count" ANone);
    ("webpage_url", info_get info "webpage_url" ANone);
    ("upload_date", info_get info "upload_date" ANone);
    ("media_type", PAtom (AStr media_type));
    ("stream_url", PAtom selected_url);
    ("available_formats", PList (candidate_value <$> formats))
  ].

(** ** The service *)

Record response := { resp_body : gmap string pyval; resp_status : Z }.

(** [return jsonify(body), status] *)
Definition jsonify (body : gmap string pyval) (status : Z) : response :=
  {| resp_body := body; resp_status := status |}.

(** A [POST /api/download] request: the [X-API-Key] header, when sent,
    and what [request.get_json()] gives for the body (it raises on a
    body that does not parse). *)
Record download_request := {
  dl_api_key : option string;
  dl_json : outcome pyval
}.

(** A [GET /api/info] request: the header and the [url] query
    parameter, when sent. *)
Record info_request := {
  info_api_key : option string;
  info_url : option string
}.

(** The [except] clauses of [download]: [except ValueError as ve]
    first, then [except Exception as e]. *)
Definition download_on_error (e : exn) : response :=
  if is_ValueError e then
    jsonify (py_dict [("error", PAtom (AStr (exn_str e)))]) 400
  else
    jsonify (py_dict [("error", PAtom (AStr "An unexpected error occurred"));
                      ("details", PAtom (AStr (exn_str e)))])
      500.

(** The [except Exception as e] clause of [get_info]. *)
Definition get_info_on_error (e : exn) : response :=
  jsonify (py_dict [("error", PAtom (AStr (exn_str e)))]) 500.

Section service.
(** [YoutubeDL(opts).extract_info(url, download=...)]: an info dict,
    [None], or an exception. *)
Variable ydl_extract_info :
  gmap string pyval → pyval → bool → outcome (option ydl_info).

(** The environment variable [API_KEY], when set. *)
Variable env_API_KEY : option string.

Definition API_KEY : string := default "mera-secret-key" env_API_KEY.

Definition call_ydl (opts : gmap string pyval) (url : pyval)
    : io (option ydl_info) :=
  λ t, (ydl_extract_info opts url false, (t ++ [url])%list).

Definition extract_info (youtube_url : pyval) (media_type : string)
    : io (gmap string pyval) :=
  let ydl_opts := YDL_COMMON_OPTS in
  try_except (
    info ← call_ydl ydl_opts youtube_url;
    match info with
    | None => raise (mk_exn ValueError "Could not extract video information")
    | Some info =>
      if negb (info_truthy info) then
        raise (mk_exn ValueError "Could not extract video information")
      else
        '(formats, selected_url) ← lift (format_selector info media_type);
        if negb (atom_truthy selected_url) then
          raise (mk_exn ValueError
                   ("No suitable " +:+ media_type +:+ " format found"))
        else
          mret (media_result info media_type selected_url formats)
    end)
  (* except Exception as e: logger.error(...); raise *)
  (λ e, raise e).

Definition download (request : download_request) : io response :=
  let provided_key := dl_api_key request in
  if negb (bool_decide (provided_key = Some API_KEY)) then
    mret (jsonify
            (py_dict [("error", PAtom (AStr "Unauthorized. Invalid API Key."))])
            401)
  else
    try_except (
      data ← lift (dl_json request);
      if negb (truthy data) then
        mret (jsonify (py_dict [("error", PAtom (AStr "Missing request body"))])
                400)
      else
        url ← lift (py_get data "url" ANone);
        type ← lift (py_get data "type" (AStr "audio"));
        media_type ← lift (py_lower type);
        if negb (truthy url) then
          mret (jsonify
                  (py_dict [("error", PAtom (AStr "Missing 'url' in request"))])
                  400)
        else if negb (bool_decide (media_type ∈ ["audio"; "video"])) then
          mret (jsonify
                  (py_dict [("error",
                             PAtom (AStr "Invalid 'type'. Use 'audio' or 'video'."))])
                  400)
        else
          has_scheme ← lift (py_startswith url ["http://"; "https://"]);
          if negb has_scheme then
            mret (jsonify (py_dict [("error", PAtom (AStr "Invalid URL format"))])
                    400)
          else
            result ← extract_info url media_type;
            mret (jsonify result 200))
    (λ e, mret (download_on_error e)).

Definition get_info (request : info_request) : io response :=
  let provided_key := info_api_key request in
  if negb (bool_decide (provided_key = Some API_KEY)) then
    mret (jsonify
            (py_dict [("error", PAtom (AStr "Unauthorized. Invalid API Key."))])
            401)
  else
    let url := from_option (λ s, PAtom (AStr s)) (PAtom ANone) (info_url request) in
    if negb (truthy url) then
      mret (jsonify (py_dict [("error", PAtom (AStr "Missing 'url' parameter"))])
              400)
    else
      try_except (
        result ← extract_info url "video";
        (* result.pop("stream_url", None) *)
        let result := delete "stream_url" result in
        mret (jsonify result 200))
      (λ e, mret (get_info_on_error e)).
End service.

(** * Vocabulary of the specification *)


(** The sample rate of an audio candidate, when it is a number. *)
Definition has_sample_rate (x : gmap string atom) : Prop :=
  is_Some (atom_num (audio_key x)).



(** Height and frame rate of a video candidate, when both are numbers. *)
Definition has_resolution (x : gmap string atom) : Prop :=
  is_Some (atom_num (video_key x).1) ∧ is_Some (atom_num (video_key x).2).







(** The URL starts with [http://] or [https://]. *)
Definition has_scheme (url : string) : Prop :=
  String.prefix "http://" url = true ∨ String.prefix "https://" url = true.

(** The media type that a download body asks for: ["audio"] when the
    body has no ["type"] key, the lower-cased value when it is a string. *)
Definition requested_type (d : gmap string pyval) (media_type : string) : Prop :=
  (d !! "type" = None ∧ media_type = "audio")
  ∨ (∃ ty, d !! "type" = Some (PAtom (AStr ty)) ∧ media_type = str_lower ty).

(** The request carries the configured key and its body is the JSON
    object [d]. *)
Definition authenticated (env : option string) (request : download_request)
    (d : gmap string pyval) : Prop :=
  dl_api_key request = Some (API_KEY env) ∧ dl_json request = Return (PDict d).

(** The request passes authentication and validation, for [url] and
    [media_type]. *)
Definition valid_download (env : option string) (request : download_request)
    (url media_type : string) : Prop :=
  ∃ d, authenticated env request d
       ∧ d !! "url" = Some (PAtom (AStr url))
       ∧ has_scheme url
       ∧ requested_type d media_type
       ∧ media_type ∈ ["audio"; "video"].

(** What [download] answers once [extract_info] has returned or raised. *)
Definition download_response (o : outcome (gmap string pyval)) : response :=
  match o with
  | Return result => jsonify result 200
  | Raise e => download_on_error e
  end.

(** The filtered candidate list of an info dict for a media type. *)
Definition candidates (info : ydl_info) (media_type : string)
    : list (gmap string atom) :=
  if String.eqb media_type "audio"
  then audio_formats (default [] (info_formats info))
  else video_formats (default [] (info_formats info)).

(** The text of the error raised when no stream URL was selected. *)
Definition no_suitable_format (media_type : string) : string :=
  "No suitable " +:+ media_type +:+ " format found".

(** Some entries of the list have a null [part] and some have not. *)
Definition mixed_null (part : gmap string atom → atom)
    (formats : list (gmap string atom)) : Prop :=
  Exists (λ x, part x = ANone) formats ∧ Exists (λ x, part x ≠ ANone) formats.

(** Candidate lists on which the scan of [max] meets a null value: at
    least two audio candidates one of which has a null sample rate; video
    candidates whose heights are partly null, or whose heights are all
    the same and whose frame rates are partly null. *)
Definition meets_null (media_type : string)
    (formats : list (gmap string atom)) : Prop :=
  (media_type = "audio"
   ∧ 2 ≤ length formats
   ∧ Exists (λ x, audio_key x = ANone) formats)
  ∨ (media_type = "video"
     ∧ (mixed_null (λ x, (video_key x).1) formats
        ∨ ((∃ h, Forall (λ x, (video_key x).1 = h) formats)
           ∧ mixed_null (λ x, (video_key x).2) formats))).

(** The answer of [download] to a failure that is not a [ValueError]. *)
Definition unexpected_error (details : string) : response :=
  jsonify (py_dict [("error", PAtom (AStr "An unexpected error occurred"));
                    ("details", PAtom (AStr details))])
    500.

(** What [get_info] answers once [extract_info] has returned or raised. *)
Definition get_info_response (o : outcome (gmap string pyval)) : response :=
  match o with
  | Return result => jsonify (delete "stream_url" result) 200
  | Raise e => get_info_on_error e
  end.

(** The JSON error envelope: an ["error"] string, possibly with a
    ["details"] string, and nothing else. *)
Definition error_envelope (body : gmap string pyval) : Prop :=
  (∃ msg, body = py_dict [("error", PAtom (AStr msg))])
  ∨ (∃ msg details, body = py_dict [("error", PAtom (AStr msg));
                                    ("details", PAtom (AStr details))]).

#[export] Instance has_sample_rate_dec x : Decision (has_sample_rate x).
Proof. unfold has_sample_rate. apply _. Defined.

#[export] Instance has_resolution_dec x : Decision (has_resolution x).
Proof. unfold has_resolution. apply _. Defined.

(** ** Vocabulary for the shape of requests and answers *)

(** The keys of the dict that [extract_info] returns. *)
Definition result_keys : gset string :=
  list_to_set ["title"; "id"; "duration"; "duration_string"; "uploader";
               "channel_url"; "thumbnail"; "description"; "tags";
               "categories"; "view_count"; "like_count"; "webpage_url";
               "upload_date"; "media_type"; "stream_url"; "available_formats"].

(** The keys of an audio and of a video candidate. *)
Definition audio_candidate_keys : gset string :=
  list_to_set ["format_id"; "ext"; "filesize"; "asr"; "url"].

Definition video_candidate_keys : gset string :=
  list_to_set ["format_id"; "ext"; "width"; "height"; "filesize"; "fps"; "url"].

(** The value is a string; the value is a JSON object. *)
Definition is_str (v : pyval) : Prop := ∃ s, v = PAtom (AStr s).
Definition is_dict (v : pyval) : Prop := ∃ d, v = PDict d.

(** Two download bodies ask for the same media type: they have the same
    ["type"] value, or strings that differ in letter case only, or one has
    no ["type"] and the other a string that lower-cases to ["audio"]. *)
Definition same_type (d1 d2 : gmap string pyval) : Prop :=
  d1 !! "type" = d2 !! "type"
  ∨ (∃ a b, d1 !! "type" = Some (PAtom (AStr a))
            ∧ d2 !! "type" = Some (PAtom (AStr b))
            ∧ str_lower a = str_lower b)
  ∨ (∃ b, d1 !! "type" = None ∧ d2 !! "type" = Some (PAtom (AStr b))
          ∧ str_lower b = "audio")
  ∨ (∃ a, d1 !! "type" = Some (PAtom (AStr a)) ∧ d2 !! "type" = None
          ∧ str_lower a = "audio").

(** Two outcomes are the same exception, or values related by [R]. *)
Definition same_end {A : Type} (R : A → A → Prop) (o1 o2 : outcome A) : Prop :=
  match o1, o2 with
  | Return a, Return b => R a b
  | Raise e1, Raise e2 => e1 = e2
  | _, _ => False
  end.

(** The fields of a format entry that the audio selection reads, and
    those that the video selection reads. *)
Definition audio_view (f : gmap string atom) : list atom :=
  [fget f "acodec"; fget f "vcodec"; fget f "asr"; fget f "url"].

Definition video_view (f : gmap string atom) : list atom :=
  [fget f "acodec"; fget f "vcodec"; fget f "height"; fget f "fps";
   fget f "url"].

(** The answer 400 of a handler's own check, with its message. *)
Definition bad_request (msg : string) : response :=
  jsonify (py_dict [("error", PAtom (AStr msg))]) 400.

(** ** Sample data

    Format entries and a stand-in for yt-dlp that answers every URL with
    the same info dict, used to run the service on concrete requests. *)
Module Sample.
Definition audio_44100 : gmap string atom :=
  py_dict [("format_id", AStr "139"); ("ext", AStr "m4a");
           ("acodec", AStr "mp4a.40.5"); ("vcodec", AStr "none");
           ("asr", AInt 44100); ("url", AStr "https://cdn.example/a44100")].

Definition audio_48000 : gmap string atom :=
  py_dict [("format_id", AStr "251"); ("ext", AStr "webm");
           ("acodec", AStr "opus"); ("vcodec", AStr "none");
           ("asr", AInt 48000); ("url", AStr "https://cdn.example/a48000")].

Definition video_720p30 : gmap string atom :=
  py_dict [("format_id", AStr "22"); ("ext", AStr "mp4");
           ("acodec", AStr "mp4a.40.2"); ("vcodec", AStr "avc1.64001F");
           ("width", AInt 1280); ("height", AInt 720); ("fps", AInt 30);
           ("url", AStr "https://cdn.example/v720")].

Definition video_1080p24 : gmap string atom :=
  py_dict [("format_id", AStr "37"); ("ext", AStr "mp4");
           ("acodec", AStr "mp4a.40.2"); ("vcodec", AStr "avc1.640028");
           ("width", AInt 1920); ("height", AInt 1080); ("fps", AInt 24);
           ("url", AStr "https://cdn.example/v1080")].

(** Muxed entries without a frame rate, and audio entries without a
    sample rate. *)
Definition video_720p : gmap string atom :=
  py_dict [("format_id", AStr "22"); ("ext", AStr "mp4");
           ("acodec", AStr "mp4a.40.2"); ("vcodec", AStr "avc1.64001F");
           ("height", AInt 720); ("fps", ANone);
           ("url", AStr "https://cdn.example/v720")].

Definition video_1080p : gmap string atom :=
  py_dict [("format_id", AStr "37"); ("ext", AStr "mp4");
           ("acodec", AStr "mp4a.40.2"); ("vcodec", AStr "avc1.640028");
           ("height", AInt 1080);
           ("url", AStr "https://cdn.example/v1080")].

Definition audio_unknown_rate : gmap string atom :=
  py_dict [("format_id", AStr "hls-audio"); ("ext", AStr "mp4");
           ("acodec", AStr "mp4a.40.2"); ("vcodec", AStr "none");
           ("url", AStr "https://cdn.example/hls-audio")].

Definition info_of (formats : list (gmap string atom)) : ydl_info :=
  {| info_formats := Some formats;
     info_fields := py_dict [("title", PAtom (AStr "A title"));
                             ("id", PAtom (AStr "abc123"))] |}.

Definition ydl_returning (info : ydl_info)
    : gmap string pyval → pyval → bool → outcome (option ydl_info) :=
  λ _ _ _, Return (Some info).

Definition ydl_raising (e : exn)
    : gmap string pyval → pyval → bool → outcome (option ydl_info) :=
  λ _ _ _, Raise e.

Definition page_url : string := "https://video.example/watch?v=abc123".
Definition page : pyval := PAtom (AStr page_url).

(** A download request with the default key for [page_url]. *)
Definition download_of (type : string) : download_request :=
  {| dl_api_key := Some "mera-secret-key";
     dl_json := Return (PDict (py_dict [("url", page);
                                        ("type", PAtom (AStr type))])) |}.
End Sample.

(** * Properties *)

(** ** The collecting loops *)

Lemma collect_from_acc (keep : gmap string atom → bool)
    (build : gmap string atom → gmap string atom) raw acc :
  foldl (λ formats f, if keep f then (formats ++ [build f])%list else formats)
    acc raw
  = (acc ++ (build <$> List.filter keep raw))%list.
Proof.
  revert acc. induction raw as [|f raw IH]; intros acc; simpl.
  - by rewrite app_nil_r.
  - rewrite IH. destruct (keep f); simpl; [|done].
    by rewrite <- app_assoc.
Qed.

Lemma collect_filter_map (keep : gmap string atom → bool)
    (build : gmap string atom → gmap string atom) raw :
  collect keep build raw = build <$> List.filter keep raw.
Proof. unfold collect. by rewrite collect_from_acc. Qed.

(** The dict display of a candidate binds each of its keys, to [None]
    when the format entry has no such key. *)
Lemma audio_candidate_asr f : audio_candidate f !! "asr" = Some (fget f "asr").
Proof. unfold audio_candidate, py_dict. by simplify_map_eq. Qed.

Lemma audio_candidate_url f : audio_candidate f !! "url" = Some (fget f "url").
Proof. unfold audio_candidate, py_dict. by simplify_map_eq. Qed.

Lemma video_candidate_height f :
  video_candidate f !! "height" = Some (fget f "height").
Proof. unfold video_candidate, py_dict. by simplify_map_eq. Qed.

Lemma video_candidate_fps f : video_candidate f !! "fps" = Some (fget f "fps").
Proof. unfold video_candidate, py_dict. by simplify_map_eq. Qed.

Lemma video_candidate_url f : video_candidate f !! "url" = Some (fget f "url").
Proof. unfold video_candidate, py_dict. by simplify_map_eq. Qed.

(** ** The scan of [max] when every comparison is defined *)

Section max_scan_defined.
Context {A K : Type} (key : A → K) (gt : K → K → outcome bool).

(** [P] singles out the items on which [gt] is defined, where it
    agrees with the strict weak order [gtb]. *)
Variable P : A → Prop.
Variable gtb : A → A → bool.
Hypothesis gt_gtb : ∀ x y, P x → P y → gt (key x) (key y) = Return (gtb x y).
Hypothesis gtb_asym : ∀ x y, gtb x y = true → gtb y x = false.
Hypothesis gtb_cotrans :
  ∀ x y z, gtb x y = true → gtb x z = true ∨ gtb z y = true.


End max_scan_defined.

(** ** Comparisons on numbers *)











(** ** The selected URL *)


Lemma select_url_raises {K : Type} (key : gmap string atom → K) gt
    (formats : list (gmap string atom)) e :
  py_max key gt formats = Raise e →
  formats ≠ [] →
  select_url key gt formats = Raise e.
Proof.
  intros Hmax Hne. destruct formats as [|x rest]; [done|].
  unfold select_url. by rewrite Hmax.
Qed.

Lemma fget_audio_candidate_url f : fget (audio_candidate f) "url" = fget f "url".
Proof. unfold fget at 1. by rewrite audio_candidate_url. Qed.

Lemma fget_video_candidate_url f : fget (video_candidate f) "url" = fget f "url".
Proof. unfold fget at 1. by rewrite video_candidate_url. Qed.



(** ** Runs of [extract_info] *)

Lemma media_result_stream_url info media_type u formats :
  media_result info media_type u formats !! "stream_url" = Some (PAtom u).
Proof. unfold media_result, py_dict. by simplify_map_eq. Qed.

Lemma media_result_media_type info media_type u formats :
  media_result info media_type u formats !! "media_type"
  = Some (PAtom (AStr media_type)).
Proof. unfold media_result, py_dict. by simplify_map_eq. Qed.

Lemma media_result_available_formats info media_type u formats :
  media_result info media_type u formats !! "available_formats"
  = Some (PList (candidate_value <$> formats)).
Proof. unfold media_result, py_dict. by simplify_map_eq. Qed.

Section extract_info_runs.
Variable ydl : gmap string pyval → pyval → bool → outcome (option ydl_info).

(** Every run calls yt-dlp once, with the URL it was given. *)
Lemma extract_info_trace url media_type t :
  (extract_info ydl url media_type t).2 = (t ++ [url])%list.
Proof.
  unfold extract_info, try_except, mbind, io_bind, call_ydl, lift, raise,
    mret, io_ret.
  destruct (ydl YDL_COMMON_OPTS url false) as [[info|]|e]; simpl; [|done|done].
  destruct (info_truthy info); simpl; [|done].
  destruct (format_selector info media_type) as [[formats u]|e]; simpl; [|done].
  by destruct (atom_truthy u).
Qed.


Lemma extract_info_nothing_selected url media_type t info formats u :
  ydl YDL_COMMON_OPTS url false = Return (Some info) →
  info_truthy info = true →
  format_selector info media_type = Return (formats, u) →
  atom_truthy u = false →
  extract_info ydl url media_type t
  = (Raise (mk_exn ValueError
              ("No suitable " +:+ media_type +:+ " format found")),
     (t ++ [url])%list).
Proof.
  intros Hydl Hinfo Hsel Hu.
  unfold extract_info, try_except, mbind, io_bind, call_ydl, lift, raise,
    mret, io_ret.
  rewrite Hydl. simpl. rewrite Hinfo. simpl. rewrite Hsel. simpl.
  by rewrite Hu.
Qed.

Lemma extract_info_selector_raises url media_type t info e :
  ydl YDL_COMMON_OPTS url false = Return (Some info) →
  info_truthy info = true →
  format_selector info media_type = Raise e →
  extract_info ydl url media_type t = (Raise e, (t ++ [url])%list).
Proof.
  intros Hydl Hinfo Hsel.
  unfold extract_info, try_except, mbind, io_bind, call_ydl, lift, raise,
    mret, io_ret.
  rewrite Hydl. simpl. rewrite Hinfo. simpl. by rewrite Hsel.
Qed.

(** A run that returns has selected a URL that is true. *)
Lemma extract_info_returns url media_type t r t' :
  extract_info ydl url media_type t = (Return r, t') →
  ∃ info formats u,
    ydl YDL_COMMON_OPTS url false = Return (Some info)
    ∧ format_selector info media_type = Return (formats, u)
    ∧ atom_truthy u = true
    ∧ r = media_result info media_type u formats
    ∧ t' = (t ++ [url])%list.
Proof.
  unfold extract_info, try_except, mbind, io_bind, call_ydl, lift, raise,
    mret, io_ret.
  destruct (ydl YDL_COMMON_OPTS url false) as [[info|]|e]; simpl; [|done|done].
  destruct (info_truthy info); simpl; [|done].
  destruct (format_selector info media_type) as [[formats u]|e] eqn:Hsel;
    simpl; [|done].
  destruct (atom_truthy u) eqn:Hu; simpl; [|done].
  intros [= <- <-]. by exists info, formats, u.
Qed.
End extract_info_runs.

(** ** The codec tests *)

Lemma atom_eq_str a s : atom_eq a (AStr s) = true ↔ a = AStr s.
Proof.
  destruct a as [|b|z|s']; simpl; try (split; [discriminate|done]).
  rewrite String.eqb_eq. split; congruence.
Qed.

Lemma fget_is_str f k s : fget f k = AStr s ↔ f !! k = Some (AStr s).
Proof.
  unfold fget. destruct (f !! k) as [a|]; simpl; [|done].
  split; congruence.
Qed.

Lemma codec_is_none f k :
  atom_eq (fget f k) (AStr "none") = true ↔ f !! k = Some (AStr "none").
Proof. by rewrite atom_eq_str, fget_is_str. Qed.


Lemma info_with_candidates_truthy keep build info :
  collect keep build (default [] (info_formats info)) ≠ [] →
  info_truthy info = true.
Proof.
  unfold info_truthy. by destruct (info_formats info).
Qed.

(** ** Audio selection *)



(** ** Video selection *)



(** ** Runs of [download] *)

Section download_runs.
Variable ydl : gmap string pyval → pyval → bool → outcome (option ydl_info).
Variable env : option string.

Lemma download_unauthorized request t :
  dl_api_key request ≠ Some (API_KEY env) →
  download ydl env request t
  = (Return (jsonify
               (py_dict [("error", PAtom (AStr "Unauthorized. Invalid API Key."))])
               401), t).
Proof.
  intros Hkey. unfold download. by rewrite bool_decide_false.
Qed.

Lemma has_scheme_truthy url : has_scheme url → atom_truthy (AStr url) = true.
Proof. destruct url; [|done]. by intros [|]. Qed.

Lemma has_scheme_startswith url :
  has_scheme url →
  py_startswith (PAtom (AStr url)) ["http://"; "https://"] = Return true.
Proof.
  intros [H|H]; simpl; rewrite H; [done|]. by rewrite orb_true_r.
Qed.

Lemma no_scheme_startswith url :
  ¬ has_scheme url →
  py_startswith (PAtom (AStr url)) ["http://"; "https://"] = Return false.
Proof.
  unfold has_scheme. intros H. simpl.
  destruct (String.prefix "http://" url); [tauto|].
  destruct (String.prefix "https://" url); [tauto|done].
Qed.

Lemma requested_type_lower d media_type :
  requested_type d media_type →
  py_get (PDict d) "type" (PAtom (AStr "audio")) ≫= py_lower = Return media_type.
Proof.
  intros [[Hty ->] | (ty & Hty & ->)]; simpl; by rewrite Hty.
Qed.

(** A request that passes authentication and validation is answered
    from the run of [extract_info]. *)
Lemma download_valid request url media_type t :
  valid_download env request url media_type →
  download ydl env request t
  = (Return (download_response
               (extract_info ydl (PAtom (AStr url)) media_type t).1),
     (extract_info ydl (PAtom (AStr url)) media_type t).2).
Proof.
  intros (d & [Hkey Hjson] & Hurl & Hscheme & Htype & Hmt).
  apply requested_type_lower in Htype.
  unfold download. rewrite bool_decide_true by done. simpl.
  unfold try_except, mbind, io_bind, lift, mret, io_ret.
  rewrite Hjson. simpl.
  rewrite bool_decide_false by (intros ->; by rewrite lookup_empty in Hurl).
  simpl. rewrite Hurl. simpl.
  simpl in Htype. unfold mbind, outcome_bind in Htype.
  destruct (py_lower (default (PAtom (AStr "audio")) (d !! "type")))
    as [mt|e]; [|done].
  injection Htype as ->.
  pose proof (has_scheme_truthy url Hscheme) as Hne. simpl in Hne.
  rewrite Hne. simpl.
  rewrite bool_decide_true by done. simpl.
  pose proof (has_scheme_startswith url Hscheme) as Hsw. simpl in Hsw.
  injection Hsw as ->. simpl.
  by destruct (extract_info ydl (PAtom (AStr url)) media_type t) as [[r|e] t'].
Qed.

Lemma download_on_error_envelope e :
  error_envelope (resp_body (download_on_error e))
  ∧ (resp_status (download_on_error e) = 400%Z
     ∨ resp_status (download_on_error e) = 500%Z).
Proof.
  unfold download_on_error, error_envelope.
  destruct (is_ValueError e); simpl; split; eauto.
Qed.

Lemma download_on_error_unexpected e :
  is_ValueError e = false → download_on_error e = unexpected_error (exn_str e).
Proof. unfold download_on_error. by intros ->. Qed.

(** [download] never raises.  It answers 401 or 400 from one of its own
    checks, without calling yt-dlp, or from its [except] clauses, or
    200 with the dict that [extract_info] returned. *)
Lemma download_cases request t :
  ∃ resp t',
    download ydl env request t = (Return resp, t')
    ∧ (((resp_status resp = 401%Z ∨ resp_status resp = 400%Z) ∧ t' = t
        ∧ ∃ msg, resp_body resp = py_dict [("error", PAtom (AStr msg))])
       ∨ (∃ e, resp = download_on_error e)
       ∨ (∃ url media_type r,
            resp = jsonify r 200
            ∧ extract_info ydl url media_type t = (Return r, t'))).
Proof.
  unfold download.
  destruct (bool_decide (dl_api_key request = Some (API_KEY env))); simpl.
  2:{ eauto 10. }
  unfold try_except, mbind, io_bind, lift, mret, io_ret.
  destruct (dl_json request) as [data|e]; simpl; [|eauto 10].
  destruct (truthy data); simpl; [|eauto 10].
  destruct (py_get data "url" (PAtom ANone)) as [url|e]; simpl; [|eauto 10].
  destruct (py_get data "type" (PAtom (AStr "audio"))) as [ty|e]; simpl;
    [|eauto 10].
  destruct (py_lower ty) as [media_type|e]; simpl; [|eauto 10].
  destruct (truthy url); simpl; [|eauto 10].
  destruct (bool_decide (media_type ∈ ["audio"; "video"])); simpl; [|eauto 10].
  destruct (py_startswith url ["http://"; "https://"]) as [[]|e]; simpl;
    [|eauto 10|eauto 10].
  destruct (extract_info ydl url media_type t) as [[r|e] t'] eqn:Hrun;
    simpl; [|eauto 10].
  exists (jsonify r 200), t'. split; [done|]. do 2 right. eauto.
Qed.
End download_runs.

(** ** Runs of [get_info] *)

Section get_info_runs.
Variable ydl : gmap string pyval → pyval → bool → outcome (option ydl_info).
Variable env : option string.

Lemma get_info_unauthorized request t :
  info_api_key request ≠ Some (API_KEY env) →
  get_info ydl env request t
  = (Return (jsonify
               (py_dict [("error", PAtom (AStr "Unauthorized. Invalid API Key."))])
               401), t).
Proof.
  intros Hkey. unfold get_info. by rewrite bool_decide_false.
Qed.

Lemma get_info_missing_url request t :
  info_api_key request = Some (API_KEY env) →
  info_url request = None ∨ info_url request = Some "" →
  get_info ydl env request t
  = (Return (jsonify (py_dict [("error", PAtom (AStr "Missing 'url' parameter"))])
               400), t).
Proof.
  intros Hkey Hurl. unfold get_info. rewrite bool_decide_true by done.
  by destruct Hurl as [-> | ->].
Qed.

(** With the right key and a non-empty [url] parameter the answer
    comes from the run of [extract_info] on that URL, whatever the URL
    looks like. *)
Lemma get_info_run request url t :
  info_api_key request = Some (API_KEY env) →
  info_url request = Some url →
  url ≠ "" →
  get_info ydl env request t
  = (Return (get_info_response
               (extract_info ydl (PAtom (AStr url)) "video" t).1),
     (extract_info ydl (PAtom (AStr url)) "video" t).2).
Proof.
  intros Hkey Hurl Hne. unfold get_info. rewrite bool_decide_true by done.
  rewrite Hurl. simpl.
  destruct url as [|c url]; [done|]. simpl.
  unfold try_except, mbind, io_bind, mret, io_ret.
  by destruct (extract_info ydl _ "video" t) as [[r|e] t'].
Qed.

(** [get_info] never raises: it answers from its own checks or from
    the run of [extract_info]. *)
Lemma get_info_cases request t :
  ∃ resp t',
    get_info ydl env request t = (Return resp, t')
    ∧ ((∃ msg, resp_body resp = py_dict [("error", PAtom (AStr msg))])
       ∨ (∃ r, resp = jsonify (delete "stream_url" r) 200)).
Proof.
  destruct (decide (info_api_key request = Some (API_KEY env))) as [Hkey|Hkey].
  2:{ rewrite get_info_unauthorized by done. simpl. eauto 10. }
  destruct (info_url request) as [url|] eqn:Hurl.
  2:{ rewrite get_info_missing_url by auto. simpl. eauto 10. }
  destruct (decide (url = "")) as [->|Hne].
  { rewrite get_info_missing_url by auto. simpl. eauto 10. }
  rewrite (get_info_run request url t Hkey Hurl Hne).
  destruct (extract_info ydl (PAtom (AStr url)) "video" t).1 as [r|e]; simpl.
  - eauto 10.
  - unfold get_info_on_error. simpl. eauto 10.
Qed.
End get_info_runs.

(** ** Authentication *)

(** C4.  A request to [POST /api/download] or [GET /api/info] whose
    [X-API-Key] header is missing or differs from the configured key is
    answered 401 with the body [{"error": "Unauthorized. Invalid API
    Key."}], whatever the rest of the request is, and yt-dlp is not
    called. *)
Theorem bad_api_key_is_401 ydl env :
  (∀ request t,
     dl_api_key request ≠ Some (API_KEY env) →
     download ydl env request t
     = (Return (jsonify
                  (py_dict [("error", PAtom (AStr "Unauthorized. Invalid API Key."))])
                  401), t))
  ∧ (∀ request t,
       info_api_key request ≠ Some (API_KEY env) →
       get_info ydl env request t
       = (Return (jsonify
                    (py_dict [("error", PAtom (AStr "Unauthorized. Invalid API Key."))])
                    401), t)).
Proof.
  split; intros request t Hkey.
  - by apply download_unauthorized.
  - by apply get_info_unauthorized.
Qed.

Lemma bad_api_key_is_401_witness :
  let ydl := Sample.ydl_returning
               (Sample.info_of [Sample.audio_44100; Sample.audio_48000]) in
  let unauthorized :=
    jsonify (py_dict [("error", PAtom (AStr "Unauthorized. Invalid API Key."))])
      401 in
  download ydl (Some "s3cret")
    {| dl_api_key := None;
       dl_json := Return (PDict (py_dict [("url", Sample.page)])) |} []
  = (Return unauthorized, [])
  ∧ download ydl (Some "s3cret")
      {| dl_api_key := Some "guess";
         dl_json := Raise (mk_exn OtherException "400 Bad Request") |} []
    = (Return unauthorized, [])
  ∧ get_info ydl (Some "s3cret")
      {| info_api_key := Some "mera-secret-key"; info_url := None |} []
    = (Return unauthorized, []).
Proof.
  intros ydl unauthorized. split; [|split].
  - apply (proj1 (bad_api_key_is_401 ydl (Some "s3cret"))). vm_compute. discriminate.
  - apply (proj1 (bad_api_key_is_401 ydl (Some "s3cret"))). vm_compute. discriminate.
  - apply (proj2 (bad_api_key_is_401 ydl (Some "s3cret"))). vm_compute. discriminate.
Defined.

(** ** The info endpoint *)

(** C5.  Whatever [GET /api/info] answers, the body has no
    ["stream_url"] key.  Either yt-dlp is not called at all, or the
    answer is made from the run of [extract_info] on the [url]
    parameter with the media type ["video"]; a 200 answer is the dict of
    that run, which had selected a stream URL, with the ["stream_url"]
    key removed and ["media_type"] bound to ["video"]. *)
Theorem info_extracts_video_and_drops_stream_url ydl env request t resp t' :
  get_info ydl env request t = (Return resp, t') →
  resp_body resp !! "stream_url" = None
  ∧ (t' = t
     ∨ ∃ url, info_url request = Some url
         ∧ resp = get_info_response
                    (extract_info ydl (PAtom (AStr url)) "video" t).1
         ∧ t' = (t ++ [PAtom (AStr url)])%list)
  ∧ (resp_status resp = 200%Z →
     ∃ url r u,
       extract_info ydl (PAtom (AStr url)) "video" t = (Return r, t')
       ∧ r !! "stream_url" = Some (PAtom u) ∧ atom_truthy u = true
       ∧ resp_body resp = delete "stream_url" r
       ∧ resp_body resp !! "media_type" = Some (PAtom (AStr "video"))).
Proof.
  intros Hrun.
  destruct (decide (info_api_key request = Some (API_KEY env))) as [Hkey|Hkey].
  2:{ rewrite get_info_unauthorized in Hrun by done.
      injection Hrun as <- <-. repeat split; [by left|done]. }
  destruct (info_url request) as [url|] eqn:Hurl.
  2:{ rewrite get_info_missing_url in Hrun by auto.
      injection Hrun as <- <-. repeat split; [by left|done]. }
  destruct (decide (url = "")) as [->|Hne].
  { rewrite get_info_missing_url in Hrun by auto.
    injection Hrun as <- <-. repeat split; [by left|done]. }
  rewrite (get_info_run ydl env request url t Hkey Hurl Hne) in Hrun.
  pose proof (extract_info_trace ydl (PAtom (AStr url)) "video" t) as Htrace.
  destruct (extract_info ydl (PAtom (AStr url)) "video" t) as [o t1] eqn:Hex.
  simpl in Hrun, Htrace. injection Hrun as <- <-. subst t1.
  split; [|split].
  - destruct o as [r|e]; simpl; [by rewrite lookup_delete_eq|done].
  - right. exists url. by rewrite Hex.
  - destruct o as [r|e]; simpl; [intros _|done].
    destruct (extract_info_returns _ _ _ _ _ _ Hex)
      as (info & formats & u & _ & _ & Hu & -> & _).
    exists url, (media_result info "video" u formats), u.
    split; [done|]. split; [apply media_result_stream_url|].
    split; [done|]. split; [done|].
    rewrite lookup_delete_ne by done. apply media_result_media_type.
Qed.

Lemma info_extracts_video_and_drops_stream_url_witness :
  let info := Sample.info_of [Sample.video_720p30; Sample.video_1080p24] in
  let result :=
    media_result info "video" (AStr "https://cdn.example/v1080")
      (video_formats [Sample.video_720p30; Sample.video_1080p24]) in
  let resp := jsonify (delete "stream_url" result) 200 in
  result !! "stream_url" = Some (PAtom (AStr "https://cdn.example/v1080"))
  ∧ resp_body resp !! "stream_url" = None
  ∧ resp_body resp !! "media_type" = Some (PAtom (AStr "video")).
Proof.
  intros info result resp.
  destruct (info_extracts_video_and_drops_stream_url
              (Sample.ydl_returning info) None
              {| info_api_key := Some "mera-secret-key";
                 info_url := Some "https://video.example/watch?v=abc123" |}
              [] resp [Sample.page])
    as (Hnone & _ & Hok).
  { vm_compute. reflexivity. }
  split; [vm_compute; reflexivity|]. split; [exact Hnone|].
  destruct (Hok eq_refl) as (url & r & u & _ & _ & _ & _ & Hmt). exact Hmt.
Defined.

(** ** URL validation *)

(** The download handler rejects a URL without scheme before it calls
    yt-dlp: with the right key, a JSON object as body, a ["type"] that
    is absent or a string, and a ["url"] string that starts with neither
    [http://] nor [https://], the answer is 400 and the list of yt-dlp
    calls is unchanged. *)
Lemma download_rejects_url_without_scheme ydl env request d url media_type t :
  authenticated env request d →
  d !! "url" = Some (PAtom (AStr url)) →
  requested_type d media_type →
  ¬ has_scheme url →
  ∃ msg,
    download ydl env request t
    = (Return (jsonify (py_dict [("error", PAtom (AStr msg))]) 400), t).
Proof.
  intros [Hkey Hjson] Hurl Htype Hscheme.
  apply requested_type_lower in Htype.
  unfold download. rewrite bool_decide_true by done. simpl.
  unfold try_except, mbind, io_bind, lift, mret, io_ret.
  rewrite Hjson. simpl.
  rewrite bool_decide_false by (intros ->; by rewrite lookup_empty in Hurl).
  simpl. rewrite Hurl. simpl.
  simpl in Htype. unfold mbind, outcome_bind in Htype.
  destruct (py_lower (default (PAtom (AStr "audio")) (d !! "type")))
    as [mt|e]; [|done].
  injection Htype as ->.
  destruct (negb (String.eqb url "")); simpl; [|eauto].
  destruct (bool_decide (media_type ∈ ["audio"; "video"])); simpl; [|eauto].
  pose proof (no_scheme_startswith url Hscheme) as Hsw. simpl in Hsw.
  injection Hsw as ->. simpl. eauto.
Qed.

(** C3 (the code departs from the claim on [GET /api/info]).  With the
    right key and a non-empty [url] parameter, [get_info] hands the URL
    to yt-dlp without looking at its scheme, and its answer is never
    400: it is 200 when the extraction returns and 500 when it raises. *)
Theorem info_calls_extractor_without_scheme_check ydl env request url t :
  info_api_key request = Some (API_KEY env) →
  info_url request = Some url →
  url ≠ "" →
  ∃ resp,
    get_info ydl env request t = (Return resp, (t ++ [PAtom (AStr url)])%list)
    ∧ (resp_status resp = 200%Z ∨ resp_status resp = 500%Z).
Proof.
  intros Hkey Hurl Hne.
  rewrite (get_info_run ydl env request url t Hkey Hurl Hne).
  rewrite extract_info_trace.
  eexists. split; [done|].
  destruct (extract_info ydl (PAtom (AStr url)) "video" t).1; simpl; auto.
Qed.

Lemma info_calls_extractor_without_scheme_check_witness :
  ¬ has_scheme "ftp://files.example/clip.mp4"
  ∧ ∃ resp,
      get_info (Sample.ydl_raising (mk_exn OtherException "Unsupported URL"))
        None
        {| info_api_key := Some "mera-secret-key";
           info_url := Some "ftp://files.example/clip.mp4" |} []
      = (Return resp, [PAtom (AStr "ftp://files.example/clip.mp4")])
      ∧ (resp_status resp = 200%Z ∨ resp_status resp = 500%Z).
Proof.
  split.
  - unfold has_scheme. vm_compute. intros [H|H]; discriminate H.
  - apply (info_calls_extractor_without_scheme_check
             (Sample.ydl_raising (mk_exn OtherException "Unsupported URL"))
             None _ "ftp://files.example/clip.mp4" []).
    + vm_compute. reflexivity.
    + reflexivity.
    + discriminate.
Defined.

(** The sample download requests pass authentication and validation
    when no key is configured. *)
Lemma Sample_download_valid type :
  str_lower type ∈ ["audio"; "video"] →
  valid_download None (Sample.download_of type) Sample.page_url (str_lower type).
Proof.
  intros Hty.
  exists (py_dict [("url", Sample.page); ("type", PAtom (AStr type))]).
  split; [by split|]. split; [by vm_compute|].
  split; [right; by vm_compute|]. split; [|done].
  right. exists type. split; [by vm_compute|done].
Qed.

(** ** Nothing to select, and success *)

Lemma format_selector_no_candidates info media_type :
  media_type ∈ ["audio"; "video"] →
  candidates info media_type = [] →
  format_selector info media_type = Return ([], ANone).
Proof.
  unfold candidates, format_selector.
  intros [->|[->|[]%elem_of_nil]%elem_of_cons]%elem_of_cons; simpl;
    by intros ->.
Qed.

(** C6.  Take a [POST /api/download] request that passes authentication
    and validation, for which yt-dlp returns a non-empty info dict.  If
    the filtered candidate list is empty, or more generally if the
    selector returns no URL ([None] or the empty string), [extract_info]
    raises [ValueError("No suitable <type> format found")] and the
    answer is 400 with that text as ["error"].  Whenever [extract_info]
    returns, the answer is 200 with the returned dict, whose
    ["stream_url"] is the selected URL. *)
Theorem download_no_format_400_success_200
    ydl env request url media_type t info :
  valid_download env request url media_type →
  ydl YDL_COMMON_OPTS (PAtom (AStr url)) false = Return (Some info) →
  info_truthy info = true →
  let calls := (t ++ [PAtom (AStr url)])%list in
  let failure := mk_exn ValueError (no_suitable_format media_type) in
  let rejected :=
    jsonify (py_dict [("error", PAtom (AStr (no_suitable_format media_type)))])
      400 in
  (candidates info media_type = [] →
   extract_info ydl (PAtom (AStr url)) media_type t = (Raise failure, calls)
   ∧ download ydl env request t = (Return rejected, calls))
  ∧ (∀ formats u,
       format_selector info media_type = Return (formats, u) →
       atom_truthy u = false →
       extract_info ydl (PAtom (AStr url)) media_type t = (Raise failure, calls)
       ∧ download ydl env request t = (Return rejected, calls))
  ∧ (∀ result t',
       extract_info ydl (PAtom (AStr url)) media_type t = (Return result, t') →
       download ydl env request t = (Return (jsonify result 200), t')
       ∧ ∃ u, result !! "stream_url" = Some (PAtom u) ∧ atom_truthy u = true).
Proof.
  intros Hvalid Hydl Hinfo calls failure rejected.
  assert (∀ formats u,
            format_selector info media_type = Return (formats, u) →
            atom_truthy u = false →
            extract_info ydl (PAtom (AStr url)) media_type t = (Raise failure, calls)
            ∧ download ydl env request t = (Return rejected, calls)) as Hnone.
  { intros formats u Hsel Hu.
    pose proof (extract_info_nothing_selected ydl _ _ t _ _ _ Hydl Hinfo Hsel Hu)
      as Hrun.
    split; [done|].
    rewrite (download_valid ydl env request url media_type t Hvalid), Hrun.
    done. }
  split; [|split].
  - intros Hempty. apply (Hnone [] ANone); [|done].
    apply format_selector_no_candidates; [|done].
    by destruct Hvalid as (d & _ & _ & _ & _ & Hmt).
  - done.
  - intros result t' Hrun.
    rewrite (download_valid ydl env request url media_type t Hvalid), Hrun.
    split; [done|].
    destruct (extract_info_returns _ _ _ _ _ _ Hrun)
      as (info' & formats & u & _ & _ & Hu & -> & _).
    exists u. split; [apply media_result_stream_url|done].
Qed.

Lemma download_no_format_400_success_200_witness :
  let only_audio := Sample.info_of [Sample.audio_44100; Sample.audio_48000] in
  (candidates only_audio "video" = []
   ∧ download (Sample.ydl_returning only_audio) None
       (Sample.download_of "video") []
     = (Return (jsonify
                  (py_dict [("error",
                             PAtom (AStr "No suitable video format found"))])
                  400),
        [Sample.page]))
  ∧ ∃ result,
      download (Sample.ydl_returning only_audio) None
        (Sample.download_of "Audio") []
      = (Return (jsonify result 200), [Sample.page])
      ∧ ∃ u, result !! "stream_url" = Some (PAtom u) ∧ atom_truthy u = true.
Proof.
  intros only_audio.
  assert (candidates only_audio "video" = []) as Hempty
    by (vm_compute; reflexivity).
  split.
  - split; [exact Hempty|].
    apply (proj1 (download_no_format_400_success_200
                    (Sample.ydl_returning only_audio) None
                    (Sample.download_of "video") Sample.page_url "video" []
                    only_audio
                    (Sample_download_valid "video"
                       ltac:(apply (bool_decide_unpack _); vm_compute; exact I))
                    eq_refl eq_refl) Hempty).
  - exists (media_result only_audio "audio" (AStr "https://cdn.example/a48000")
              (audio_formats [Sample.audio_44100; Sample.audio_48000])).
    apply (proj2 (proj2 (download_no_format_400_success_200
                           (Sample.ydl_returning only_audio) None
                           (Sample.download_of "Audio") Sample.page_url "audio" []
                           only_audio
                           (Sample_download_valid "Audio"
                              ltac:(apply (bool_decide_unpack _); vm_compute; exact I))
                           eq_refl eq_refl))).
    vm_compute. reflexivity.
Defined.

(** ** The type field *)

(** The ["type"] field when it is absent or a string.  Take a
    [POST /api/download] request with the right key whose body is a JSON
    object.  Without a ["type"] key the extraction runs
    with ["audio"]; with a ["type"] string whose lower-cased form is
    ["audio"] or ["video"], as for ["Audio"] and ["VIDEO"], it runs with
    the lower-cased form; with any other ["type"] string the answer is
    400 and yt-dlp is not called. *)
Theorem download_type_default_case_and_rejection ydl env request d t :
  authenticated env request d →
  (∀ url,
     d !! "type" = None →
     d !! "url" = Some (PAtom (AStr url)) → has_scheme url →
     download ydl env request t
     = (Return (download_response
                  (extract_info ydl (PAtom (AStr url)) "audio" t).1),
        (extract_info ydl (PAtom (AStr url)) "audio" t).2))
  ∧ (∀ ty url,
       d !! "type" = Some (PAtom (AStr ty)) →
       str_lower ty ∈ ["audio"; "video"] →
       d !! "url" = Some (PAtom (AStr url)) → has_scheme url →
       download ydl env request t
       = (Return (download_response
                    (extract_info ydl (PAtom (AStr url)) (str_lower ty) t).1),
          (extract_info ydl (PAtom (AStr url)) (str_lower ty) t).2))
  ∧ (∀ ty,
       d !! "type" = Some (PAtom (AStr ty)) →
       str_lower ty ∉ ["audio"; "video"] →
       ∃ msg,
         msg ∈ ["Missing 'url' in request";
                "Invalid 'type'. Use 'audio' or 'video'."]
         ∧ download ydl env request t
           = (Return (jsonify (py_dict [("error", PAtom (AStr msg))]) 400), t))
  ∧ str_lower "Audio" = "audio" ∧ str_lower "VIDEO" = "video".
Proof.
  intros Hauth. split; [|split; [|split; [|done]]].
  - intros url Hty Hurl Hscheme. apply download_valid.
    exists d. do 3 (split; [done|]). split; [by left | set_solver].
  - intros ty url Hty Hlow Hurl Hscheme. apply download_valid.
    exists d. do 3 (split; [done|]). split; [|done]. right. by exists ty.
  - intros ty Hty Hlow. destruct Hauth as [Hkey Hjson].
    unfold download. rewrite bool_decide_true by done. simpl.
    unfold try_except, mbind, io_bind, lift, mret, io_ret.
    rewrite Hjson. simpl.
    rewrite bool_decide_false by (intros ->; by rewrite lookup_empty in Hty).
    simpl. rewrite Hty. simpl.
    destruct (truthy (default (PAtom ANone) (d !! "url"))); simpl.
    + rewrite bool_decide_false by done. simpl.
      eexists. split; [|done]. set_solver.
    + eexists. split; [|done]. set_solver.
Qed.

Lemma download_type_default_case_and_rejection_witness :
  let ydl := Sample.ydl_returning
               (Sample.info_of [Sample.video_720p30; Sample.video_1080p24]) in
  let no_type : download_request :=
    {| dl_api_key := Some "mera-secret-key";
       dl_json := Return (PDict (py_dict [("url", Sample.page)])) |} in
  download ydl None no_type []
  = (Return (download_response (extract_info ydl Sample.page "audio" []).1),
     (extract_info ydl Sample.page "audio" []).2)
  ∧ download ydl None (Sample.download_of "VIDEO") []
    = (Return (download_response (extract_info ydl Sample.page "video" []).1),
       (extract_info ydl Sample.page "video" []).2)
  ∧ ∃ msg,
      msg ∈ ["Missing 'url' in request";
             "Invalid 'type'. Use 'audio' or 'video'."]
      ∧ download ydl None (Sample.download_of "flac") []
        = (Return (jsonify (py_dict [("error", PAtom (AStr msg))]) 400), []).
Proof.
  intros ydl no_type. split; [|split].
  - apply (proj1 (download_type_default_case_and_rejection ydl None no_type
                    (py_dict [("url", Sample.page)]) []
                    (conj eq_refl eq_refl)) Sample.page_url).
    + vm_compute. reflexivity.
    + vm_compute. reflexivity.
    + right. vm_compute. reflexivity.
  - apply (proj1 (proj2 (download_type_default_case_and_rejection ydl None
                           (Sample.download_of "VIDEO")
                           (py_dict [("url", Sample.page);
                                     ("type", PAtom (AStr "VIDEO"))]) []
                           (conj eq_refl eq_refl))) "VIDEO" Sample.page_url).
    + vm_compute. reflexivity.
    + apply (bool_decide_unpack _). vm_compute. exact I.
    + vm_compute. reflexivity.
    + right. vm_compute. reflexivity.
  - apply (proj1 (proj2 (proj2 (download_type_default_case_and_rejection ydl None
                                  (Sample.download_of "flac")
                                  (py_dict [("url", Sample.page);
                                            ("type", PAtom (AStr "flac"))]) []
                                  (conj eq_refl eq_refl)))) "flac").
    + vm_compute. reflexivity.
    + apply (bool_decide_unpack _). vm_compute. exact I.
Defined.

(** ** The scan of [max] when a comparison is not defined *)

Lemma atom_gt_raises a b e : atom_gt a b = Raise e → exn_cls e = TypeError.
Proof.
  unfold atom_gt.
  destruct (atom_num a), (atom_num b), a, b; simpl; intros [= <-]; done.
Qed.

Lemma pair_gt_raises a b e : pair_gt a b = Raise e → exn_cls e = TypeError.
Proof.
  unfold pair_gt.
  destruct (negb (atom_eq a.1 b.1)); [apply atom_gt_raises|].
  destruct (negb (atom_eq a.2 b.2)); [apply atom_gt_raises|done].
Qed.

Lemma atom_gt_none a b : a = ANone ∨ b = ANone → ∃ e, atom_gt a b = Raise e.
Proof.
  unfold atom_gt. intros [-> | ->]; simpl; [by eexists|].
  destruct (atom_num a); destruct a; by eexists.
Qed.

Lemma atom_eq_refl a : atom_eq a a = true.
Proof.
  destruct a as [|b|z|s]; simpl;
    [done | apply Z.eqb_refl | apply Z.eqb_refl | apply String.eqb_refl].
Qed.

Lemma atom_eq_none_l a : a ≠ ANone → atom_eq ANone a = false.
Proof. by destruct a. Qed.

Lemma atom_eq_none_r a : a ≠ ANone → atom_eq a ANone = false.
Proof. by destruct a. Qed.

Section max_scan_undefined.
Context {A K : Type} (key : A → K) (gt : K → K → outcome bool).
Hypothesis gt_raises : ∀ a b e, gt a b = Raise e → exn_cls e = TypeError.

(** [gt] is undefined as soon as one side is in [Q]. *)
Lemma max_scan_raises_any (Q : A → Prop) :
  (∀ x m, Q x ∨ Q m → ∃ e, gt (key x) (key m) = Raise e) →
  ∀ rest m,
    rest ≠ [] → Q m ∨ Exists Q rest →
    ∃ e, max_scan key gt m (key m) rest = Raise e ∧ exn_cls e = TypeError.
Proof.
  intros Hgt. induction rest as [|item rest IH]; intros m Hne HQ; [done|].
  simpl. destruct (gt (key item) (key m)) as [b|e] eqn:Hcmp.
  - assert (Exists Q rest) as Hrest.
    { destruct HQ as [HQ | [HQ | HQ]%Exists_cons]; [| |done].
      - destruct (Hgt item m (or_intror HQ)) as [e He]. congruence.
      - destruct (Hgt item m (or_introl HQ)) as [e He]. congruence. }
    assert (rest ≠ []) by (by destruct Hrest).
    destruct b; apply IH; auto.
  - exists e. split; [done|]. by eapply gt_raises.
Qed.

(** [gt] is undefined between items of [P] of different classes. *)
Lemma max_scan_raises_mixed (P : A → Prop) (c : A → bool) :
  (∀ x m, P x → P m → c x ≠ c m → ∃ e, gt (key x) (key m) = Raise e) →
  ∀ rest m,
    P m → Forall P rest → Exists (λ x, c x ≠ c m) rest →
    ∃ e, max_scan key gt m (key m) rest = Raise e ∧ exn_cls e = TypeError.
Proof.
  intros Hgt. induction rest as [|item rest IH]; intros m Hm HP Hmix.
  { by apply Exists_nil in Hmix. }
  apply Forall_cons in HP as [Hitem HP].
  simpl. destruct (gt (key item) (key m)) as [b|e] eqn:Hcmp.
  - destruct (decide (c item = c m)) as [Hsame|Hdiff].
    2:{ destruct (Hgt item m Hitem Hm Hdiff) as [e He]. congruence. }
    apply Exists_cons in Hmix as [Hmix|Hmix]; [done|].
    destruct b; apply IH; try done.
    eapply Exists_impl; [exact Hmix|]. intros x Hx. by rewrite Hsame.
  - exists e. split; [done|]. by eapply gt_raises.
Qed.

Lemma py_max_raises_mixed (P : A → Prop) (c : A → bool) l :
  (∀ x m, P x → P m → c x ≠ c m → ∃ e, gt (key x) (key m) = Raise e) →
  Forall P l →
  Exists (λ x, c x = true) l → Exists (λ x, c x = false) l →
  ∃ e, py_max key gt l = Raise e ∧ exn_cls e = TypeError.
Proof.
  intros Hgt HP Ht Hf. destruct l as [|m rest].
  { by apply Exists_nil in Ht. }
  apply Forall_cons in HP as [Hm HP].
  apply (max_scan_raises_mixed P c Hgt rest m Hm HP).
  destruct (c m) eqn:Hcm.
  - apply Exists_cons in Hf as [Hf|Hf]; [congruence|].
    eapply Exists_impl; [exact Hf|]. intros x ->. done.
  - apply Exists_cons in Ht as [Ht|Ht]; [congruence|].
    eapply Exists_impl; [exact Ht|]. intros x ->. done.
Qed.
End max_scan_undefined.

Lemma audio_max_raises formats :
  2 ≤ length formats →
  Exists (λ x, audio_key x = ANone) formats →
  ∃ e, py_max audio_key atom_gt formats = Raise e ∧ exn_cls e = TypeError.
Proof.
  destruct formats as [|m [|x rest]]; [simpl; lia | simpl; lia |].
  intros _ Hnull. unfold py_max.
  apply (max_scan_raises_any audio_key atom_gt atom_gt_raises
           (λ x, audio_key x = ANone)).
  - intros. by apply atom_gt_none.
  - done.
  - by apply Exists_cons in Hnull.
Qed.

Lemma mixed_null_classes (part : gmap string atom → atom) formats :
  mixed_null part formats →
  Exists (λ x, bool_decide (part x = ANone) = true) formats
  ∧ Exists (λ x, bool_decide (part x = ANone) = false) formats.
Proof.
  intros [Hnull Hsome]. split.
  - eapply Exists_impl; [exact Hnull|]. intros x Hx. by apply bool_decide_eq_true.
  - eapply Exists_impl; [exact Hsome|]. intros x Hx. by apply bool_decide_eq_false.
Qed.

Lemma video_max_raises_heights formats :
  mixed_null (λ x, (video_key x).1) formats →
  ∃ e, py_max video_key pair_gt formats = Raise e ∧ exn_cls e = TypeError.
Proof.
  intros [Ht Hf]%mixed_null_classes.
  apply (py_max_raises_mixed video_key pair_gt pair_gt_raises (λ _, True)
           (λ x, bool_decide ((video_key x).1 = ANone))); [|by apply Forall_true|done..].
  intros x m _ _ Hclass. unfold pair_gt.
  destruct (decide ((video_key x).1 = ANone)) as [Hx|Hx];
    destruct (decide ((video_key m).1 = ANone)) as [Hm|Hm].
  - by rewrite !bool_decide_true in Hclass.
  - rewrite Hx, (atom_eq_none_l _ Hm). simpl. apply atom_gt_none. by left.
  - rewrite Hm, (atom_eq_none_r _ Hx). simpl. apply atom_gt_none. by right.
  - by rewrite !bool_decide_false in Hclass.
Qed.

Lemma video_max_raises_rates formats h :
  Forall (λ x, (video_key x).1 = h) formats →
  mixed_null (λ x, (video_key x).2) formats →
  ∃ e, py_max video_key pair_gt formats = Raise e ∧ exn_cls e = TypeError.
Proof.
  intros Hh [Ht Hf]%mixed_null_classes.
  apply (py_max_raises_mixed video_key pair_gt pair_gt_raises
           (λ x, (video_key x).1 = h)
           (λ x, bool_decide ((video_key x).2 = ANone))); [|done..].
  intros x m Hhx Hhm Hclass. unfold pair_gt.
  destruct (video_key x) as [hx fx], (video_key m) as [hm fm]. simpl in *.
  subst hx hm. rewrite atom_eq_refl. simpl.
  destruct (decide (fx = ANone)) as [Hx|Hx];
    destruct (decide (fm = ANone)) as [Hm'|Hm'].
  - by rewrite !bool_decide_true in Hclass.
  - rewrite Hx, (atom_eq_none_l _ Hm'). simpl. apply atom_gt_none. by left.
  - rewrite Hm', (atom_eq_none_r _ Hx). simpl. apply atom_gt_none. by right.
  - by rewrite !bool_decide_false in Hclass.
Qed.

Lemma format_selector_raises info media_type :
  meets_null media_type (candidates info media_type) →
  candidates info media_type ≠ []
  ∧ ∃ e, format_selector info media_type = Raise e ∧ exn_cls e = TypeError.
Proof.
  unfold candidates, format_selector.
  intros [(-> & Hlen & Hnull) | (-> & Hvideo)]; simpl in *.
  - assert (audio_formats (default [] (info_formats info)) ≠ []) as Hne.
    { intros Hnil. rewrite Hnil in Hlen. simpl in Hlen. lia. }
    split; [done|].
    destruct (audio_max_raises _ Hlen Hnull) as (e & He & Hcls).
    exists e. split; [|done]. by rewrite (select_url_raises _ _ _ e He Hne).
  - assert (video_formats (default [] (info_formats info)) ≠ []) as Hne.
    { intros Hnil. rewrite Hnil in Hvideo.
      destruct Hvideo as [[H _] | [_ [H _]]]; by apply Exists_nil in H. }
    split; [done|].
    assert (∃ e, py_max video_key pair_gt
                   (video_formats (default [] (info_formats info))) = Raise e
                 ∧ exn_cls e = TypeError) as (e & He & Hcls).
    { destruct Hvideo as [Hh | [[h Hh] Hr]].
      - by apply video_max_raises_heights.
      - by eapply video_max_raises_rates. }
    exists e. split; [|done]. by rewrite (select_url_raises _ _ _ e He Hne).
Qed.

(** ** Null quality values *)

(** C9, amended.  The dict display of a candidate binds ["asr"] (audio)
    and ["height"] and ["fps"] (video) to what the format entry has,
    [None] when it has nothing, so the default 0 of the key function is
    never used.  For a valid download request: when the audio candidate
    list has at least two entries and one sample rate is null, or when
    the heights of the video candidates are partly null, or are all the
    same with frame rates that are partly null, the scan of [max] raises
    a [TypeError], which [download] answers with 500.  (Video candidates
    with null frame rates and different heights are compared on the
    heights alone and a stream is selected.) *)
Theorem null_quality_value_raises_type_error :
  (∀ f dflt,
     default dflt (audio_candidate f !! "asr") = fget f "asr"
     ∧ default dflt (video_candidate f !! "height") = fget f "height"
     ∧ default dflt (video_candidate f !! "fps") = fget f "fps")
  ∧ (∀ f, f !! "asr" = None → audio_key (audio_candidate f) = ANone)
  ∧ (∀ ydl env request url media_type t info,
       valid_download env request url media_type →
       ydl YDL_COMMON_OPTS (PAtom (AStr url)) false = Return (Some info) →
       meets_null media_type (candidates info media_type) →
       ∃ e,
         exn_cls e = TypeError
         ∧ format_selector info media_type = Raise e
         ∧ download ydl env request t
           = (Return (unexpected_error (exn_str e)),
              (t ++ [PAtom (AStr url)])%list)).
Proof.
  split; [|split].
  - intros f dflt.
    by rewrite audio_candidate_asr, video_candidate_height, video_candidate_fps.
  - intros f Hf. unfold audio_key. rewrite audio_candidate_asr.
    unfold fget. by rewrite Hf.
  - intros ydl env request url media_type t info Hvalid Hydl Hnull.
    destruct (format_selector_raises info media_type Hnull)
      as (Hne & e & Hsel & Hcls).
    exists e. split; [done|]. split; [done|].
    assert (info_truthy info = true) as Hinfo.
    { unfold candidates in Hne.
      destruct (String.eqb media_type "audio");
        by eapply info_with_candidates_truthy. }
    rewrite (download_valid ydl env request url media_type t Hvalid).
    rewrite (extract_info_selector_raises ydl _ _ t info e Hydl Hinfo Hsel).
    simpl. unfold download_on_error, is_ValueError. by rewrite Hcls.
Qed.

Lemma null_quality_value_raises_type_error_witness :
  let info := Sample.info_of [Sample.audio_unknown_rate; Sample.audio_48000] in
  meets_null "audio" (candidates info "audio")
  ∧ ∃ e,
      exn_cls e = TypeError
      ∧ format_selector info "audio" = Raise e
      ∧ download (Sample.ydl_returning info) None (Sample.download_of "audio") []
        = (Return (unexpected_error (exn_str e)), ([] ++ [Sample.page])%list).
Proof.
  intros info.
  assert (meets_null "audio" (candidates info "audio")) as Hnull.
  { left. split; [reflexivity|]. split; [vm_compute; lia|].
    apply Exists_cons. left. vm_compute. reflexivity. }
  split; [exact Hnull|].
  apply (proj2 (proj2 null_quality_value_raises_type_error)
           (Sample.ydl_returning info) None (Sample.download_of "audio")
           Sample.page_url "audio" [] info).
  - apply (Sample_download_valid "audio").
    apply (bool_decide_unpack _). vm_compute. exact I.
  - reflexivity.
  - exact Hnull.
Defined.

(** The answer of [download] on two audio candidates one of which has
    no sample rate. *)
Example null_sample_rate_answer :
  download
    (Sample.ydl_returning
       (Sample.info_of [Sample.audio_unknown_rate; Sample.audio_48000]))
    None (Sample.download_of "audio") []
  = (Return (unexpected_error
               "'>' not supported between instances of 'int' and 'NoneType'"),
     [Sample.page]).
Proof. vm_compute. reflexivity. Qed.

(** The claim as the specification states it fails on video candidates
    whose frame rates are null and whose heights differ: the tuples are
    ordered by the heights, nothing is raised, and the answer is 200 with
    the URL of the higher stream. *)
Lemma null_frame_rates_still_select_by_height :
  let info := Sample.info_of [Sample.video_720p; Sample.video_1080p] in
  let formats := video_formats [Sample.video_720p; Sample.video_1080p] in
  length formats = 2
  ∧ Forall (λ x, (video_key x).2 = ANone) formats
  ∧ py_max video_key pair_gt formats = Return (video_candidate Sample.video_1080p)
  ∧ download (Sample.ydl_returning info) None (Sample.download_of "video") []
    = (Return (jsonify
                 (media_result info "video" (AStr "https://cdn.example/v1080")
                    formats)
                 200),
       [Sample.page]).
Proof.
  intros info formats. split; [|split; [|split]].
  - vm_compute. reflexivity.
  - apply (bool_decide_unpack _). vm_compute. exact I.
  - vm_compute. reflexivity.
  - vm_compute. reflexivity.
Qed.

(** ** Errors at the handler boundary *)

(** C7, amended.  Neither handler raises: each answers with a response,
    and a response whose status is not 200 has the JSON error envelope as
    its body.  In [download], an exception raised by the request parsing
    or by the extraction is answered 400 with its text as ["error"] when
    it is a [ValueError], and otherwise 500 with the fixed message under
    ["error"] and its text under ["details"]; every 500 answer of
    [download] has that form. *)
Theorem handler_errors_become_envelopes ydl env :
  (∀ request t,
     ∃ resp t',
       download ydl env request t = (Return resp, t')
       ∧ (resp_status resp = 200%Z ∨ error_envelope (resp_body resp))
       ∧ (resp_status resp = 500%Z → ∃ details, resp = unexpected_error details))
  ∧ (∀ request t,
       ∃ resp t',
         get_info ydl env request t = (Return resp, t')
         ∧ (resp_status resp = 200%Z ∨ error_envelope (resp_body resp)))
  ∧ (∀ request url media_type t e t',
       valid_download env request url media_type →
       extract_info ydl (PAtom (AStr url)) media_type t = (Raise e, t') →
       download ydl env request t
       = (Return (if is_ValueError e
                  then jsonify (py_dict [("error", PAtom (AStr (exn_str e)))]) 400
                  else unexpected_error (exn_str e)),
          t'))
  ∧ (∀ request t e,
       dl_api_key request = Some (API_KEY env) →
       dl_json request = Raise e →
       download ydl env request t
       = (Return (if is_ValueError e
                  then jsonify (py_dict [("error", PAtom (AStr (exn_str e)))]) 400
                  else unexpected_error (exn_str e)),
          t)).
Proof.
  split; [|split; [|split]].
  - intros request t.
    destruct (download_cases ydl env request t)
      as (resp & t' & Hrun & [([Hst|Hst] & _ & msg & Hbody) | [[e ->] | Hok]]).
    + exists resp, t'. split; [done|]. split; [right; left; eauto|].
      rewrite Hst. discriminate.
    + exists resp, t'. split; [done|]. split; [right; left; eauto|].
      rewrite Hst. discriminate.
    + exists (download_on_error e), t'. split; [done|].
      split; [right; apply download_on_error_envelope|].
      unfold download_on_error. destruct (is_ValueError e); simpl; [done|].
      intros _. by exists (exn_str e).
    + destruct Hok as (url & media_type & r & -> & _).
      exists (jsonify r 200), t'. split; [done|]. split; [by left|done].
  - intros request t.
    destruct (get_info_cases ydl env request t)
      as (resp & t' & Hrun & [[msg Hbody] | [r ->]]).
    + exists resp, t'. split; [done|]. right. left. eauto.
    + exists (jsonify (delete "stream_url" r) 200), t'. split; [done|]. by left.
  - intros request url media_type t e t' Hvalid Hrun.
    rewrite (download_valid ydl env request url media_type t Hvalid), Hrun.
    simpl. unfold download_on_error. by destruct (is_ValueError e).
  - intros request t e Hkey Hjson.
    unfold download. rewrite bool_decide_true by done. simpl.
    unfold try_except, mbind, io_bind, lift, mret, io_ret.
    rewrite Hjson. simpl. unfold download_on_error.
    by destruct (is_ValueError e).
Qed.

Lemma handler_errors_become_envelopes_witness :
  download (Sample.ydl_raising (mk_exn OtherException "HTTP Error 403: Forbidden"))
    None (Sample.download_of "audio") []
  = (Return (unexpected_error "HTTP Error 403: Forbidden"), [Sample.page])
  ∧ download (Sample.ydl_raising (mk_exn OtherException "unused")) None
      {| dl_api_key := Some "mera-secret-key";
         dl_json := Raise (mk_exn OtherException
                             "400 Bad Request: Failed to decode JSON object") |}
      []
    = (Return (unexpected_error "400 Bad Request: Failed to decode JSON object"),
       []).
Proof.
  split.
  - apply (proj1 (proj2 (proj2 (handler_errors_become_envelopes
             (Sample.ydl_raising (mk_exn OtherException "HTTP Error 403: Forbidden"))
             None)))
             (Sample.download_of "audio") Sample.page_url "audio" []
             (mk_exn OtherException "HTTP Error 403: Forbidden") [Sample.page]).
    + apply (Sample_download_valid "audio").
      apply (bool_decide_unpack _). vm_compute. exact I.
    + vm_compute. reflexivity.
  - apply (proj2 (proj2 (proj2 (handler_errors_become_envelopes
             (Sample.ydl_raising (mk_exn OtherException "unused")) None)))
             _ []
             (mk_exn OtherException
                "400 Bad Request: Failed to decode JSON object")).
    + reflexivity.
    + reflexivity.
Defined.

(** The claim as the specification states it fails in [download] itself:
    a [ValueError] that yt-dlp raises is answered 400 with the raw text of
    the exception as the error message and nothing else. *)
Lemma value_error_text_is_the_error_message :
  let raw := "invalid literal for int() with base 10: 'n/a'" in
  let resp := jsonify (py_dict [("error", PAtom (AStr raw))]) 400 in
  download (Sample.ydl_raising (mk_exn ValueError raw)) None
    (Sample.download_of "audio") []
  = (Return resp, [Sample.page])
  ∧ resp_body resp !! "error" = Some (PAtom (AStr raw))
  ∧ resp_body resp !! "details" = None.
Proof.
  intros raw resp. split; [|split]; vm_compute; reflexivity.
Qed.

(** In [get_info] every exception is answered 500 with its text as the
    error message. *)
Example info_error_answer :
  get_info (Sample.ydl_raising (mk_exn OtherException "HTTP Error 403: Forbidden"))
    None
    {| info_api_key := Some "mera-secret-key";
       info_url := Some Sample.page_url |} []
  = (Return (jsonify
               (py_dict [("error", PAtom (AStr "HTTP Error 403: Forbidden"))])
               500),
     [Sample.page]).
Proof. vm_compute. reflexivity. Qed.

(** * Further properties of the handlers *)

(** Steps through [download] once the key has been accepted. *)
Ltac enter_download Hkey :=
  unfold download; rewrite bool_decide_true by exact Hkey; simpl;
  unfold try_except, mbind, io_bind, lift, mret, io_ret.

Lemma dict_with_key_nonempty (d : gmap string pyval) k v :
  d !! k = Some v → bool_decide (d = ∅) = false.
Proof. intros Hk. apply bool_decide_eq_false. intros ->. by rewrite lookup_empty in Hk. Qed.

(** ** The body of a download request *)

(** X1.  With the right key, a body that parses to a false value (JSON
    [null], [{}], [[]], [""], [0] or [false]) is answered 400 with
    "Missing request body", and yt-dlp is not called. *)
Theorem download_missing_body_is_400 ydl env request data t :
  dl_api_key request = Some (API_KEY env) →
  dl_json request = Return data →
  truthy data = false →
  download ydl env request t = (Return (bad_request "Missing request body"), t).
Proof.
  intros Hkey Hjson Hfalse. enter_download Hkey.
  rewrite Hjson. simpl. by rewrite Hfalse.
Qed.

Lemma download_missing_body_is_400_witness :
  let ydl := Sample.ydl_returning (Sample.info_of [Sample.audio_48000]) in
  download ydl None
    {| dl_api_key := Some "mera-secret-key"; dl_json := Return (PAtom ANone) |} []
  = (Return (bad_request "Missing request body"), [])
  ∧ download ydl None
      {| dl_api_key := Some "mera-secret-key"; dl_json := Return (PDict ∅) |} []
    = (Return (bad_request "Missing request body"), []).
Proof.
  intros ydl. split.
  - apply (download_missing_body_is_400 ydl None _ (PAtom ANone) []);
      reflexivity.
  - apply (download_missing_body_is_400 ydl None _ (PDict ∅) []);
      reflexivity.
Defined.

(** X2.  With the right key and a non-empty JSON object whose ["type"]
    is absent or any string, a ["url"] that is absent or false ([null],
    [""], [0], ...) is answered 400 with "Missing 'url' in request": the
    check of the URL comes before the check of the type, and yt-dlp is
    not called. *)
Theorem download_missing_url_is_400 ydl env request d media_type t :
  authenticated env request d →
  d ≠ ∅ →
  requested_type d media_type →
  truthy (default (PAtom ANone) (d !! "url")) = false →
  download ydl env request t
  = (Return (bad_request "Missing 'url' in request"), t).
Proof.
  intros [Hkey Hjson] Hne Htype Hurl.
  apply requested_type_lower in Htype.
  enter_download Hkey. rewrite Hjson. simpl.
  rewrite bool_decide_false by done. simpl.
  simpl in Htype. unfold mbind, outcome_bind in Htype.
  destruct (py_lower (default (PAtom (AStr "audio")) (d !! "type")))
    as [mt|e]; [|done].
  simpl. by rewrite Hurl.
Qed.

Lemma download_missing_url_is_400_witness :
  let ydl := Sample.ydl_returning (Sample.info_of [Sample.audio_48000]) in
  let body : gmap string pyval :=
    py_dict [("url", PAtom (AStr "")); ("type", PAtom (AStr "flac"))] in
  download ydl None
    {| dl_api_key := Some "mera-secret-key"; dl_json := Return (PDict body) |} []
  = (Return (bad_request "Missing 'url' in request"), []).
Proof.
  intros ydl body.
  apply (download_missing_url_is_400 ydl None _ body "flac" []).
  - split; reflexivity.
  - apply (bool_decide_unpack _). vm_compute. exact I.
  - right. exists "flac". split; vm_compute; reflexivity.
  - vm_compute. reflexivity.
Defined.

(** X3.  With the right key and a JSON object, a ["type"] that is
    present but not a string ([null], a number, a list, ...) makes
    [.lower()] raise an [AttributeError]; the answer is 500 with the text
    of that exception as details, whatever the ["url"] is, and yt-dlp is
    not called. *)
Theorem download_non_string_type_is_500 ydl env request d v t :
  authenticated env request d →
  d !! "type" = Some v →
  ¬ is_str v →
  download ydl env request t
  = (Return (unexpected_error
               ("'" +:+ type_name v +:+ "' object has no attribute 'lower'")),
     t).
Proof.
  intros [Hkey Hjson] Hty Hstr. enter_download Hkey.
  rewrite Hjson. simpl. rewrite (dict_with_key_nonempty d _ _ Hty). simpl.
  rewrite Hty. simpl.
  destruct v as [[| | |s]| |]; try done.
  destruct Hstr. by exists s.
Qed.

Lemma download_non_string_type_is_500_witness :
  let ydl := Sample.ydl_returning (Sample.info_of [Sample.audio_48000]) in
  let body : gmap string pyval :=
    py_dict [("url", Sample.page); ("type", PAtom ANone)] in
  download ydl None
    {| dl_api_key := Some "mera-secret-key"; dl_json := Return (PDict body) |} []
  = (Return (unexpected_error "'NoneType' object has no attribute 'lower'"), []).
Proof.
  intros ydl body.
  apply (download_non_string_type_is_500 ydl None _ body (PAtom ANone) []).
  - split; reflexivity.
  - vm_compute. reflexivity.
  - intros [s Hs]. discriminate Hs.
Defined.

(** X4.  With the right key, a body that parses to a true value that is
    not a JSON object (a non-empty list or string, a number, [true]) has
    no [.get]: the answer is 500 with the text of the [AttributeError] as
    details, and yt-dlp is not called. *)
Theorem download_non_object_body_is_500 ydl env request data t :
  dl_api_key request = Some (API_KEY env) →
  dl_json request = Return data →
  truthy data = true →
  ¬ is_dict data →
  download ydl env request t
  = (Return (unexpected_error
               ("'" +:+ type_name data +:+ "' object has no attribute 'get'")),
     t).
Proof.
  intros Hkey Hjson Htrue Hdict. enter_download Hkey.
  rewrite Hjson. simpl. rewrite Htrue. simpl.
  destruct data as [a|l|d]; try done.
  destruct Hdict. by exists d.
Qed.

Lemma download_non_object_body_is_500_witness :
  let ydl := Sample.ydl_returning (Sample.info_of [Sample.audio_48000]) in
  download ydl None
    {| dl_api_key := Some "mera-secret-key";
       dl_json := Return (PList [Sample.page]) |} []
  = (Return (unexpected_error "'list' object has no attribute 'get'"), []).
Proof.
  intros ydl.
  apply (download_non_object_body_is_500 ydl None _ (PList [Sample.page]) []).
  - reflexivity.
  - reflexivity.
  - reflexivity.
  - intros [d Hd]. discriminate Hd.
Defined.

(** X5.  With the right key, a JSON object and an accepted type, a
    ["url"] that is true but not a string (a number, a list, an object)
    has no [.startswith]: the answer is 500 with the text of the
    [AttributeError] as details, and yt-dlp is not called. *)
Theorem download_non_string_url_is_500 ydl env request d v media_type t :
  authenticated env request d →
  d !! "url" = Some v →
  truthy v = true →
  ¬ is_str v →
  requested_type d media_type →
  media_type ∈ ["audio"; "video"] →
  download ydl env request t
  = (Return (unexpected_error
               ("'" +:+ type_name v
                +:+ "' object has no attribute 'startswith'")),
     t).
Proof.
  intros [Hkey Hjson] Hurl Htrue Hstr Htype Hmt.
  apply requested_type_lower in Htype.
  enter_download Hkey. rewrite Hjson. simpl.
  rewrite (dict_with_key_nonempty d _ _ Hurl). simpl. rewrite Hurl. simpl.
  simpl in Htype. unfold mbind, outcome_bind in Htype.
  destruct (py_lower (default (PAtom (AStr "audio")) (d !! "type")))
    as [mt|e]; [|done].
  injection Htype as ->. simpl. rewrite Htrue. simpl.
  rewrite bool_decide_true by done. simpl.
  destruct v as [[| | |s]| |]; try done.
  destruct Hstr. by exists s.
Qed.

Lemma download_non_string_url_is_500_witness :
  let ydl := Sample.ydl_returning (Sample.info_of [Sample.audio_48000]) in
  let body : gmap string pyval := py_dict [("url", PAtom (AInt 42))] in
  download ydl None
    {| dl_api_key := Some "mera-secret-key"; dl_json := Return (PDict body) |} []
  = (Return (unexpected_error "'int' object has no attribute 'startswith'"), []).
Proof.
  intros ydl body.
  apply (download_non_string_url_is_500 ydl None _ body (PAtom (AInt 42))
           "audio" []).
  - split; reflexivity.
  - vm_compute. reflexivity.
  - reflexivity.
  - intros [s Hs]. discriminate Hs.
  - left. split; vm_compute; reflexivity.
  - apply (bool_decide_unpack _). vm_compute. exact I.
Defined.

(** X6.  With the right key, a JSON object, an accepted type and a
    non-empty ["url"] string that starts with neither [http://] nor
    [https://] (the test is on the exact lower-case prefixes), the answer
    is 400 with "Invalid URL format", and yt-dlp is not called. *)
Theorem download_url_without_scheme_is_400 ydl env request d url media_type t :
  authenticated env request d →
  d !! "url" = Some (PAtom (AStr url)) →
  url ≠ "" →
  requested_type d media_type →
  media_type ∈ ["audio"; "video"] →
  ¬ has_scheme url →
  download ydl env request t = (Return (bad_request "Invalid URL format"), t).
Proof.
  intros [Hkey Hjson] Hurl Hne Htype Hmt Hscheme.
  apply requested_type_lower in Htype.
  enter_download Hkey. rewrite Hjson. simpl.
  rewrite (dict_with_key_nonempty d _ _ Hurl). simpl. rewrite Hurl. simpl.
  simpl in Htype. unfold mbind, outcome_bind in Htype.
  destruct (py_lower (default (PAtom (AStr "audio")) (d !! "type")))
    as [mt|e]; [|done].
  injection Htype as ->.
  destruct url as [|c url]; [done|]. simpl.
  rewrite bool_decide_true by done. simpl.
  pose proof (no_scheme_startswith (String c url) Hscheme) as Hsw.
  simpl in Hsw. injection Hsw as ->. done.
Qed.

Lemma download_url_without_scheme_is_400_witness :
  let ydl := Sample.ydl_returning (Sample.info_of [Sample.audio_48000]) in
  let body : gmap string pyval :=
    py_dict [("url", PAtom (AStr "HTTPS://video.example/watch?v=abc123"));
             ("type", PAtom (AStr "video"))] in
  download ydl None
    {| dl_api_key := Some "mera-secret-key"; dl_json := Return (PDict body) |} []
  = (Return (bad_request "Invalid URL format"), []).
Proof.
  intros ydl body.
  apply (download_url_without_scheme_is_400 ydl None _ body
           "HTTPS://video.example/watch?v=abc123" "video" []).
  - split; reflexivity.
  - vm_compute. reflexivity.
  - discriminate.
  - right. exists "video". split; vm_compute; reflexivity.
  - apply (bool_decide_unpack _). vm_compute. exact I.
  - unfold has_scheme. vm_compute. intros [H|H]; discriminate H.
Defined.

(** ** Calls of yt-dlp *)

(** X7.  A handler calls yt-dlp at most once per request, and never
    retries: [download] calls it only with a ["url"] string of the body
    that has a scheme, [get_info] only with a non-empty [url] parameter;
    every other request leaves the list of calls unchanged. *)
Theorem handlers_call_ydl_at_most_once ydl env :
  (∀ request t,
     (download ydl env request t).2 = t
     ∨ ∃ d url,
         authenticated env request d
         ∧ d !! "url" = Some (PAtom (AStr url)) ∧ has_scheme url
         ∧ (download ydl env request t).2 = (t ++ [PAtom (AStr url)])%list)
  ∧ (∀ request t,
       (get_info ydl env request t).2 = t
       ∨ ∃ url,
           info_api_key request = Some (API_KEY env)
           ∧ info_url request = Some url ∧ url ≠ ""
           ∧ (get_info ydl env request t).2 = (t ++ [PAtom (AStr url)])%list).
Proof.
  split; intros request t.
  - unfold download.
    destruct (decide (dl_api_key request = Some (API_KEY env))) as [Hkey|Hkey].
    2:{ rewrite bool_decide_false by done. by left. }
    rewrite bool_decide_true by done. simpl.
    unfold try_except, mbind, io_bind, lift, mret, io_ret.
    destruct (dl_json request) as [data|e] eqn:Hjson; simpl; [|by left].
    destruct (truthy data); simpl; [|by left].
    destruct data as [a|l|d]; simpl; [by left|by left|].
    destruct (py_lower (default (PAtom (AStr "audio")) (d !! "type")))
      as [media_type|e]; simpl; [|by left].
    destruct (d !! "url") as [url|] eqn:Hurl; simpl; [|by left].
    destruct (truthy url); simpl; [|by left].
    destruct (bool_decide (media_type ∈ ["audio"; "video"])); simpl; [|by left].
    destruct url as [[| | |s]|l|d']; simpl; try by left.
    destruct (String.prefix "http://" s || (String.prefix "https://" s || false))
      eqn:Hpre; simpl; [|by left].
    right. exists d, s. split; [done|]. split; [done|]. split.
    { unfold has_scheme. rewrite orb_false_r in Hpre.
      by apply orb_true_iff in Hpre. }
    pose proof (extract_info_trace ydl (PAtom (AStr s)) media_type t) as Htr.
    by destruct (extract_info ydl (PAtom (AStr s)) media_type t) as [[r|e] t'].
  - destruct (decide (info_api_key request = Some (API_KEY env))) as [Hkey|Hkey].
    2:{ rewrite get_info_unauthorized by done. by left. }
    destruct (info_url request) as [url|] eqn:Hurl.
    2:{ rewrite get_info_missing_url by auto. by left. }
    destruct (decide (url = "")) as [->|Hne].
    { rewrite get_info_missing_url by auto. by left. }
    right. exists url. do 3 (split; [done|]).
    rewrite (get_info_run ydl env request url t Hkey Hurl Hne).
    apply extract_info_trace.
Qed.

(** ** Extraction without a usable answer *)

(** X8.  When yt-dlp returns [None] or an empty info dict,
    [extract_info] raises [ValueError("Could not extract video
    information")] for every media type, after its one call of yt-dlp; a
    valid download request is then answered 400 and an info request 500,
    both with that text as ["error"]. *)
Theorem no_metadata_is_reported ydl env url media_type t :
  ydl YDL_COMMON_OPTS (PAtom (AStr url)) false = Return None
  ∨ (∃ info, ydl YDL_COMMON_OPTS (PAtom (AStr url)) false = Return (Some info)
             ∧ info_truthy info = false) →
  let calls := (t ++ [PAtom (AStr url)])%list in
  let text := "Could not extract video information" in
  extract_info ydl (PAtom (AStr url)) media_type t
  = (Raise (mk_exn ValueError text), calls)
  ∧ (∀ request,
       valid_download env request url media_type →
       download ydl env request t = (Return (bad_request text), calls))
  ∧ (∀ request,
       info_api_key request = Some (API_KEY env) →
       info_url request = Some url → url ≠ "" →
       get_info ydl env request t
       = (Return (jsonify (py_dict [("error", PAtom (AStr text))]) 500),
          (t ++ [PAtom (AStr url)])%list)).
Proof.
  intros Hydl calls text.
  assert (∀ mt, extract_info ydl (PAtom (AStr url)) mt t
                = (Raise (mk_exn ValueError text), calls)) as Hrun.
  { intros mt.
    unfold extract_info, try_except, mbind, io_bind, call_ydl, lift, raise,
      mret, io_ret.
    destruct Hydl as [-> | (info & -> & Hinfo)]; simpl; [done|].
    by rewrite Hinfo. }
  split; [apply Hrun|]. split.
  - intros request Hvalid.
    by rewrite (download_valid ydl env request url media_type t Hvalid), Hrun.
  - intros request Hkey Hurl Hne.
    by rewrite (get_info_run ydl env request url t Hkey Hurl Hne), Hrun.
Qed.

Lemma no_metadata_is_reported_witness :
  let ydl : gmap string pyval → pyval → bool → outcome (option ydl_info) :=
    λ _ _ _, Return None in
  download ydl None (Sample.download_of "video") []
  = (Return (bad_request "Could not extract video information"), [Sample.page])
  ∧ get_info ydl None
      {| info_api_key := Some "mera-secret-key";
         info_url := Some Sample.page_url |} []
    = (Return (jsonify
                 (py_dict [("error",
                            PAtom (AStr "Could not extract video information"))])
                 500),
       [Sample.page]).
Proof.
  intros ydl.
  destruct (no_metadata_is_reported ydl None Sample.page_url "video" []
              (or_introl eq_refl)) as (_ & Hd & Hi).
  split.
  - apply Hd. apply (Sample_download_valid "video").
    apply (bool_decide_unpack _). vm_compute. exact I.
  - apply Hi; [reflexivity | reflexivity | discriminate].
Defined.

(** X9.  [extract_info] tests its media type only after yt-dlp has
    answered, and on the exact strings: for a media type other than
    ["audio"] and ["video"] (["Audio"] included) and a non-empty info
    dict it raises [ValueError("Invalid media type")], the call of yt-dlp
    having been made. *)
Theorem extract_info_rejects_other_media_types ydl url media_type t info :
  ydl YDL_COMMON_OPTS url false = Return (Some info) →
  info_truthy info = true →
  media_type ∉ ["audio"; "video"] →
  extract_info ydl url media_type t
  = (Raise (mk_exn ValueError "Invalid media type"), (t ++ [url])%list).
Proof.
  intros Hydl Hinfo Hmt.
  apply extract_info_selector_raises with (info := info); [done|done|].
  unfold format_selector.
  destruct (String.eqb_spec media_type "audio") as [->|_]; [set_solver|].
  destruct (String.eqb_spec media_type "video") as [->|_]; [set_solver|done].
Qed.

Lemma extract_info_rejects_other_media_types_witness :
  let info := Sample.info_of [Sample.audio_44100; Sample.audio_48000] in
  extract_info (Sample.ydl_returning info) Sample.page "Audio" []
  = (Raise (mk_exn ValueError "Invalid media type"), ([] ++ [Sample.page])%list).
Proof.
  intros info.
  apply (extract_info_rejects_other_media_types (Sample.ydl_returning info)
           Sample.page "Audio" [] info).
  - reflexivity.
  - reflexivity.
  - apply (bool_decide_unpack _). vm_compute. exact I.
Defined.

(** ** The shape of the answers *)

Lemma media_result_keys info media_type u formats :
  dom (media_result info media_type u formats) = result_keys.
Proof. unfold media_result, py_dict. by rewrite dom_list_to_map_L. Qed.

Lemma info_extracts_drop_key ydl env request t resp t' :
  get_info ydl env request t = (Return resp, t') →
  resp_status resp = 200%Z →
  ∃ r, resp = jsonify (delete "stream_url" r) 200 ∧ dom r = result_keys.
Proof.
  intros Hrun Hst.
  destruct (decide (info_api_key request = Some (API_KEY env))) as [Hkey|Hkey].
  2:{ rewrite get_info_unauthorized in Hrun by done.
      injection Hrun as <- <-. discriminate Hst. }
  destruct (info_url request) as [url|] eqn:Hurl.
  2:{ rewrite get_info_missing_url in Hrun by auto.
      injection Hrun as <- <-. discriminate Hst. }
  destruct (decide (url = "")) as [->|Hne].
  { rewrite get_info_missing_url in Hrun by auto.
    injection Hrun as <- <-. discriminate Hst. }
  rewrite (get_info_run ydl env request url t Hkey Hurl Hne) in Hrun.
  destruct (extract_info ydl (PAtom (AStr url)) "video" t) as [[r|e] t1] eqn:Hex;
    simpl in Hrun; injection Hrun as <- <-; [|discriminate Hst].
  destruct (extract_info_returns _ _ _ _ _ _ Hex)
    as (info & formats & u & _ & _ & _ & -> & _).
  eexists. split; [done|]. apply media_result_keys.
Qed.

(** X10.  A 200 answer of [download] has exactly the seventeen keys of
    the result dict, a 200 answer of [get_info] the same keys without
    ["stream_url"]; an audio candidate has exactly the keys [format_id],
    [ext], [filesize], [asr], [url], a video candidate these with [width],
    [height] and [fps] in place of [asr], whatever other fields the
    format entry of yt-dlp carries. *)
Theorem answers_have_fixed_keys ydl env :
  (∀ request t resp t',
     download ydl env request t = (Return resp, t') →
     resp_status resp = 200%Z →
     dom (resp_body resp) = result_keys)
  ∧ (∀ request t resp t',
       get_info ydl env request t = (Return resp, t') →
       resp_status resp = 200%Z →
       dom (resp_body resp) = result_keys ∖ {["stream_url"]})
  ∧ (∀ f, dom (audio_candidate f) = audio_candidate_keys
          ∧ dom (video_candidate f) = video_candidate_keys).
Proof.
  split; [|split].
  - intros request t resp t' Hrun Hst.
    destruct (download_cases ydl env request t)
      as (resp0 & t0 & Hrun0 & Hcases).
    rewrite Hrun in Hrun0. injection Hrun0 as <- <-.
    destruct Hcases as [([H|H] & _) | [[e ->] | (url & mt & r & -> & Hex)]].
    + rewrite H in Hst. discriminate.
    + rewrite H in Hst. discriminate.
    + unfold download_on_error in Hst. by destruct (is_ValueError e).
    + destruct (extract_info_returns _ _ _ _ _ _ Hex)
        as (info & formats & u & _ & _ & _ & -> & _).
      apply media_result_keys.
  - intros request t resp t' Hrun Hst.
    destruct (info_extracts_drop_key ydl env request t resp t' Hrun Hst)
      as (r & -> & Hr).
    simpl. by rewrite dom_delete_L, Hr.
  - intros f. unfold audio_candidate, video_candidate, py_dict.
    by rewrite !dom_list_to_map_L.
Qed.

(** ** What is selected *)

Lemma max_scan_elem {A K : Type} (key : A → K) gt rest : ∀ m v x,
  max_scan key gt m v rest = Return x → x = m ∨ x ∈ rest.
Proof.
  induction rest as [|item rest IH]; intros m v x; simpl.
  - intros [= ->]. by left.
  - destruct (gt (key item) v) as [[]|e]; [| |done]; intros Hx.
    + destruct (IH _ _ _ Hx) as [->|Hin]; right; [left | by right].
    + destruct (IH _ _ _ Hx) as [->|Hin]; [by left | right; by right].
Qed.

Lemma py_max_elem {A K : Type} (key : A → K) gt l x :
  py_max key gt l = Return x → x ∈ l.
Proof.
  destruct l as [|m rest]; [done|]. simpl. intros Hx.
  destruct (max_scan_elem _ _ _ _ _ _ Hx) as [->|Hin]; [left | by right].
Qed.

Lemma select_url_returns {K : Type} (key : gmap string atom → K) gt formats u :
  select_url key gt formats = Return u →
  (formats = [] ∧ u = ANone) ∨ ∃ best, best ∈ formats ∧ best !! "url" = Some u.
Proof.
  destruct formats as [|c rest]; [intros [= <-]; by left|].
  unfold select_url. intros Hsel. right.
  destruct (py_max key gt (c :: rest)) as [best|e] eqn:Hmax; [|done].
  simpl in Hsel. unfold py_index in Hsel.
  destruct (best !! "url") as [v|] eqn:Hurl; [|done].
  injection Hsel as ->. exists best. split; [|done]. by eapply py_max_elem.
Qed.

Lemma format_selector_returns info media_type formats u :
  format_selector info media_type = Return (formats, u) →
  media_type ∈ ["audio"; "video"]
  ∧ formats = candidates info media_type
  ∧ ((formats = [] ∧ u = ANone)
     ∨ ∃ best, best ∈ formats ∧ best !! "url" = Some u).
Proof.
  unfold format_selector, candidates.
  destruct (String.eqb_spec media_type "audio") as [->|Hna].
  - destruct (select_url audio_key atom_gt _) as [v|e] eqn:Hsel; [|done].
    simpl. intros [= <- <-]. split; [set_solver|]. split; [done|].
    by apply select_url_returns in Hsel.
  - destruct (String.eqb_spec media_type "video") as [->|Hnv]; [|done].
    destruct (select_url video_key pair_gt _) as [v|e] eqn:Hsel; [|done].
    simpl. intros [= <- <-]. split; [set_solver|]. split; [done|].
    by apply select_url_returns in Hsel.
Qed.

(** X11.  Whenever [extract_info] returns, the ["stream_url"] of its
    result is the ["url"] of one of the candidates listed under
    ["available_formats"], it is a true value, and ["media_type"] is
    ["audio"] or ["video"]. *)
Theorem stream_url_is_a_listed_format ydl url media_type t result t' :
  extract_info ydl url media_type t = (Return result, t') →
  ∃ formats best u,
    result !! "available_formats" = Some (PList (candidate_value <$> formats))
    ∧ best ∈ formats
    ∧ best !! "url" = Some u
    ∧ result !! "stream_url" = Some (PAtom u)
    ∧ atom_truthy u = true
    ∧ result !! "media_type" = Some (PAtom (AStr media_type))
    ∧ media_type ∈ ["audio"; "video"].
Proof.
  intros Hrun.
  destruct (extract_info_returns _ _ _ _ _ _ Hrun)
    as (info & formats & u & _ & Hsel & Hu & -> & _).
  destruct (format_selector_returns _ _ _ _ Hsel)
    as (Hmt & _ & [[_ ->] | (best & Hbest & Hurl)]); [done|].
  exists formats, best, u.
  split; [apply media_result_available_formats|].
  split; [done|]. split; [done|].
  split; [apply media_result_stream_url|]. split; [done|].
  split; [apply media_result_media_type | done].
Qed.

Lemma stream_url_is_a_listed_format_witness :
  let info := Sample.info_of [Sample.video_720p30; Sample.video_1080p24] in
  ∃ formats best u,
    media_result info "video" (AStr "https://cdn.example/v1080")
      (video_formats [Sample.video_720p30; Sample.video_1080p24])
    !! "available_formats" = Some (PList (candidate_value <$> formats))
    ∧ best ∈ formats
    ∧ best !! "url" = Some u
    ∧ media_result info "video" (AStr "https://cdn.example/v1080")
        (video_formats [Sample.video_720p30; Sample.video_1080p24])
      !! "stream_url" = Some (PAtom u)
    ∧ atom_truthy u = true
    ∧ media_result info "video" (AStr "https://cdn.example/v1080")
        (video_formats [Sample.video_720p30; Sample.video_1080p24])
      !! "media_type" = Some (PAtom (AStr "video"))
    ∧ "video" ∈ ["audio"; "video"].
Proof.
  intros info.
  apply (stream_url_is_a_listed_format (Sample.ydl_returning info) Sample.page
           "video" [] _ [Sample.page]).
  vm_compute. reflexivity.
Defined.

(** X12.  The two filters split the format entries of yt-dlp in three:
    no entry is a candidate for both media types; an entry is a candidate
    for neither exactly when its audio codec is ["none"] (video-only
    streams and storyboards); an entry without codec fields counts as a
    video candidate.  So a page whose entries all have the audio codec
    ["none"] has no candidate for either media type. *)
Theorem codec_fields_split_the_formats :
  (∀ f, is_audio_only f && is_muxed f = false)
  ∧ (∀ f, is_audio_only f || is_muxed f = false
          ↔ f !! "acodec" = Some (AStr "none"))
  ∧ (∀ f, f !! "acodec" = None → f !! "vcodec" = None →
          is_muxed f = true ∧ is_audio_only f = false)
  ∧ (∀ raw, Forall (λ f, f !! "acodec" = Some (AStr "none")) raw →
            audio_formats raw = [] ∧ video_formats raw = []).
Proof.
  assert (∀ f, is_audio_only f || is_muxed f = false
               ↔ f !! "acodec" = Some (AStr "none")) as Hnone.
  { intros f. rewrite <- codec_is_none. unfold is_audio_only, is_muxed.
    destruct (atom_eq (fget f "acodec") (AStr "none"));
      destruct (atom_eq (fget f "vcodec") (AStr "none")); simpl; naive_solver. }
  split; [|split; [done|split]].
  - intros f. unfold is_audio_only, is_muxed.
    destruct (atom_eq (fget f "acodec") (AStr "none"));
      by destruct (atom_eq (fget f "vcodec") (AStr "none")).
  - intros f Ha Hv. unfold is_audio_only, is_muxed, fget. by rewrite Ha, Hv.
  - intros raw Hall. unfold audio_formats, video_formats.
    rewrite !collect_filter_map.
    induction Hall as [|f raw Hf _ [IHa IHv]]; [done|].
    apply Hnone in Hf. apply orb_false_iff in Hf as [Ha Hm].
    simpl. by rewrite Ha, Hm.
Qed.

Lemma codec_fields_split_the_formats_witness :
  let video_only : gmap string atom :=
    py_dict [("format_id", AStr "137"); ("acodec", AStr "none");
             ("vcodec", AStr "avc1.640028"); ("height", AInt 1080);
             ("url", AStr "https://cdn.example/v1080-only")] in
  let no_codecs : gmap string atom :=
    py_dict [("format_id", AStr "hls-720");
             ("url", AStr "https://cdn.example/hls-720")] in
  (is_muxed no_codecs = true ∧ is_audio_only no_codecs = false)
  ∧ (audio_formats [video_only] = [] ∧ video_formats [video_only] = []).
Proof.
  intros video_only no_codecs. split.
  - apply (proj1 (proj2 (proj2 codec_fields_split_the_formats)) no_codecs);
      vm_compute; reflexivity.
  - apply (proj2 (proj2 (proj2 codec_fields_split_the_formats)) [video_only]).
    apply Forall_singleton. vm_compute. reflexivity.
Defined.

(** X14.  When exactly one format entry passes the filter, its URL is
    selected without any comparison, so also when its sample rate, height
    or frame rate is null. *)
Theorem single_candidate_is_selected info media_type c :
  media_type ∈ ["audio"; "video"] →
  candidates info media_type = [c] →
  format_selector info media_type = Return ([c], fget c "url").
Proof.
  unfold candidates, format_selector.
  intros [->|[->|[]%elem_of_nil]%elem_of_cons]%elem_of_cons Hone; simpl in *.
  - rewrite Hone. unfold audio_formats in Hone.
    rewrite collect_filter_map in Hone.
    apply fmap_cons_inv in Hone as (f & l & -> & _ & _).
    simpl. unfold py_index.
    by rewrite audio_candidate_url, fget_audio_candidate_url.
  - rewrite Hone. unfold video_formats in Hone.
    rewrite collect_filter_map in Hone.
    apply fmap_cons_inv in Hone as (f & l & -> & _ & _).
    simpl. unfold py_index.
    by rewrite video_candidate_url, fget_video_candidate_url.
Qed.

Lemma single_candidate_is_selected_witness :
  format_selector (Sample.info_of [Sample.audio_unknown_rate; Sample.video_720p])
    "audio"
  = Return ([audio_candidate Sample.audio_unknown_rate],
            fget (audio_candidate Sample.audio_unknown_rate) "url")
  ∧ audio_key (audio_candidate Sample.audio_unknown_rate) = ANone.
Proof.
  split; [|vm_compute; reflexivity].
  apply (single_candidate_is_selected
           (Sample.info_of [Sample.audio_unknown_rate; Sample.video_720p])
           "audio" (audio_candidate Sample.audio_unknown_rate)).
  - apply (bool_decide_unpack _). vm_compute. exact I.
  - vm_compute. reflexivity.
Defined.

(** ** The two endpoints side by side *)

(** X13.  For the same URL, key and yt-dlp, [get_info] and a valid
    video request to [download] make the same single call of yt-dlp; one
    answers 200 exactly when the other does, the info body then being the
    download body without ["stream_url"]; when the extraction fails,
    [download] answers 400 or 500 and [get_info] always 500. *)
Theorem info_is_video_download_without_stream_url
    ydl env dl_request info_req url t :
  valid_download env dl_request url "video" →
  info_api_key info_req = Some (API_KEY env) →
  info_url info_req = Some url →
  ∃ dl_resp info_resp calls,
    download ydl env dl_request t = (Return dl_resp, calls)
    ∧ get_info ydl env info_req t = (Return info_resp, calls)
    ∧ calls = (t ++ [PAtom (AStr url)])%list
    ∧ (resp_status dl_resp = 200%Z ↔ resp_status info_resp = 200%Z)
    ∧ (resp_status dl_resp = 200%Z →
       resp_body info_resp = delete "stream_url" (resp_body dl_resp))
    ∧ (resp_status dl_resp ≠ 200%Z →
       (resp_status dl_resp = 400%Z ∨ resp_status dl_resp = 500%Z)
       ∧ resp_status info_resp = 500%Z).
Proof.
  intros Hvalid Hkey Hurl.
  assert (url ≠ "") as Hne.
  { destruct Hvalid as (d & _ & _ & Hscheme & _).
    intros ->. by destruct Hscheme. }
  rewrite (download_valid ydl env dl_request url "video" t Hvalid).
  rewrite (get_info_run ydl env info_req url t Hkey Hurl Hne).
  rewrite extract_info_trace.
  destruct (extract_info ydl (PAtom (AStr url)) "video" t).1 as [r|e]; simpl.
  - eexists _, _, _. do 3 (split; [done|]). simpl. split; [done|].
    split; [done|]. intros []. done.
  - eexists _, _, _. do 3 (split; [done|]).
    unfold download_on_error. destruct (is_ValueError e); simpl.
    + split; [split; discriminate|]. split; [discriminate|]. auto.
    + split; [split; discriminate|]. split; [discriminate|]. auto.
Qed.

Lemma info_is_video_download_without_stream_url_witness :
  let ydl := Sample.ydl_returning
               (Sample.info_of [Sample.video_720p30; Sample.video_1080p24]) in
  ∃ dl_resp info_resp calls,
    download ydl None (Sample.download_of "video") [] = (Return dl_resp, calls)
    ∧ get_info ydl None
        {| info_api_key := Some "mera-secret-key";
           info_url := Some Sample.page_url |} []
      = (Return info_resp, calls)
    ∧ calls = ([] ++ [PAtom (AStr Sample.page_url)])%list
    ∧ (resp_status dl_resp = 200%Z ↔ resp_status info_resp = 200%Z)
    ∧ (resp_status dl_resp = 200%Z →
       resp_body info_resp = delete "stream_url" (resp_body dl_resp))
    ∧ (resp_status dl_resp ≠ 200%Z →
       (resp_status dl_resp = 400%Z ∨ resp_status dl_resp = 500%Z)
       ∧ resp_status info_resp = 500%Z).
Proof.
  intros ydl.
  apply (info_is_video_download_without_stream_url ydl None
           (Sample.download_of "video") _ Sample.page_url []).
  - apply (Sample_download_valid "video").
    apply (bool_decide_unpack _). vm_compute. exact I.
  - reflexivity.
  - reflexivity.
Defined.

(** ** The key *)

(** X15.  The key that opens the service is the value of the
    environment variable [API_KEY], and ["mera-secret-key"] when the
    variable is not set; a request that carries it is never answered 401,
    by either handler. *)
Theorem right_key_is_never_401 ydl env :
  API_KEY env = default "mera-secret-key" env
  ∧ (∀ request t resp t',
       dl_api_key request = Some (API_KEY env) →
       download ydl env request t = (Return resp, t') →
       resp_status resp ≠ 401%Z)
  ∧ (∀ request t resp t',
       info_api_key request = Some (API_KEY env) →
       get_info ydl env request t = (Return resp, t') →
       resp_status resp ≠ 401%Z).
Proof.
  split; [done|]. split.
  - intros request t resp t' Hkey. enter_download Hkey.
    destruct (dl_json request) as [data|e]; simpl.
    2:{ intros [= <- <-]. unfold download_on_error.
        by destruct (is_ValueError e). }
    destruct (truthy data); simpl; [|by intros [= <- <-]].
    destruct (py_get data "url" (PAtom ANone)) as [url|e]; simpl.
    2:{ intros [= <- <-]. unfold download_on_error.
        by destruct (is_ValueError e). }
    destruct (py_get data "type" (PAtom (AStr "audio"))) as [ty|e]; simpl.
    2:{ intros [= <- <-]. unfold download_on_error.
        by destruct (is_ValueError e). }
    destruct (py_lower ty) as [media_type|e]; simpl.
    2:{ intros [= <- <-]. unfold download_on_error.
        by destruct (is_ValueError e). }
    destruct (truthy url); simpl; [|by intros [= <- <-]].
    destruct (bool_decide (media_type ∈ ["audio"; "video"])); simpl;
      [|by intros [= <- <-]].
    destruct (py_startswith url ["http://"; "https://"]) as [[]|e]; simpl.
    + destruct (extract_info ydl url media_type t) as [[r|e] t1]; simpl.
      * by intros [= <- <-].
      * intros [= <- <-]. unfold download_on_error.
        by destruct (is_ValueError e).
    + by intros [= <- <-].
    + intros [= <- <-]. unfold download_on_error.
      by destruct (is_ValueError e).
  - intros request t resp t' Hkey Hrun.
    destruct (info_url request) as [url|] eqn:Hurl.
    2:{ rewrite get_info_missing_url in Hrun by auto.
        by injection Hrun as <- <-. }
    destruct (decide (url = "")) as [->|Hne].
    { rewrite get_info_missing_url in Hrun by auto.
      by injection Hrun as <- <-. }
    rewrite (get_info_run ydl env request url t Hkey Hurl Hne) in Hrun.
    injection Hrun as <- _.
    by destruct (extract_info ydl (PAtom (AStr url)) "video" t).1.
Qed.

Lemma right_key_is_never_401_witness :
  let ydl := Sample.ydl_raising (mk_exn OtherException "network unreachable") in
  resp_status (unexpected_error "network unreachable") ≠ 401%Z
  ∧ resp_status (bad_request "Missing 'url' parameter") ≠ 401%Z.
Proof.
  intros ydl. split.
  - apply (proj1 (proj2 (right_key_is_never_401 ydl (Some "s3cret")))
             {| dl_api_key := Some "s3cret";
                dl_json := Return (PDict (py_dict [("url", Sample.page)])) |}
             [] _ [Sample.page]).
    + reflexivity.
    + vm_compute. reflexivity.
  - apply (proj2 (proj2 (right_key_is_never_401 ydl (Some "s3cret")))
             {| info_api_key := Some "s3cret"; info_url := None |} [] _ []).
    + reflexivity.
    + vm_compute. reflexivity.
Defined.

(** ** What a download request is read for *)

Lemma same_type_lower d1 d2 :
  same_type d1 d2 →
  py_lower (default (PAtom (AStr "audio")) (d1 !! "type"))
  = py_lower (default (PAtom (AStr "audio")) (d2 !! "type")).
Proof.
  intros [Heq | [(a & b & -> & -> & Hab) | [(b & -> & -> & Hb)
                                          | (a & -> & -> & Ha)]]]; simpl.
  - by rewrite Heq.
  - by rewrite Hab.
  - by rewrite Hb.
  - by rewrite Ha.
Qed.

(** X16.  [download] reads nothing of a request but the key, the
    ["url"] and the ["type"] of the body, the latter up to letter case:
    two requests with the right key and non-empty JSON objects that have
    the same ["url"] and ask for the same type get the same answer and
    make the same call of yt-dlp, whatever other keys the bodies have. *)
Theorem download_reads_only_url_and_type ydl env request1 request2 d1 d2 t :
  authenticated env request1 d1 →
  authenticated env request2 d2 →
  d1 ≠ ∅ → d2 ≠ ∅ →
  d1 !! "url" = d2 !! "url" →
  same_type d1 d2 →
  download ydl env request1 t = download ydl env request2 t.
Proof.
  intros [Hkey1 Hjson1] [Hkey2 Hjson2] Hne1 Hne2 Hurl Htype.
  apply same_type_lower in Htype.
  unfold download.
  rewrite !bool_decide_true by done. simpl.
  unfold try_except, mbind, io_bind, lift, mret, io_ret.
  rewrite Hjson1, Hjson2. simpl.
  rewrite !bool_decide_false by done. simpl.
  by rewrite Hurl, Htype.
Qed.

Lemma download_reads_only_url_and_type_witness :
  let ydl := Sample.ydl_returning
               (Sample.info_of [Sample.audio_44100; Sample.audio_48000]) in
  let plain : gmap string pyval := py_dict [("url", Sample.page)] in
  let noisy : gmap string pyval :=
    py_dict [("url", Sample.page); ("type", PAtom (AStr "AUDIO"));
             ("quality", PAtom (AStr "best")); ("download", PAtom (ABool true))] in
  download ydl None
    {| dl_api_key := Some "mera-secret-key"; dl_json := Return (PDict plain) |} []
  = download ydl None
      {| dl_api_key := Some "mera-secret-key"; dl_json := Return (PDict noisy) |}
      [].
Proof.
  intros ydl plain noisy.
  apply (download_reads_only_url_and_type ydl None _ _ plain noisy []).
  - split; reflexivity.
  - split; reflexivity.
  - apply (bool_decide_unpack _). vm_compute. exact I.
  - apply (bool_decide_unpack _). vm_compute. exact I.
  - vm_compute. reflexivity.
  - right. right. left. exists "AUDIO". repeat split; vm_compute; reflexivity.
Defined.

(** ** What the selection is read from *)

Section max_scan_related.
Context {A K : Type} (key : A → K) (gt : K → K → outcome bool).
Variable R : A → A → Prop.
Hypothesis R_key : ∀ x y, R x y → key x = key y.

(** Two scans over lists with the same keys end alike. *)
Lemma max_scan_related l1 l2 :
  Forall2 R l1 l2 → ∀ m1 m2,
  R m1 m2 →
  same_end R (max_scan key gt m1 (key m1) l1) (max_scan key gt m2 (key m2) l2).
Proof.
  induction 1 as [|x y l1 l2 Hxy _ IH]; intros m1 m2 Hm; simpl; [done|].
  assert (gt (key x) (key m1) = gt (key y) (key m2)) as ->
    by (by rewrite (R_key _ _ Hxy), (R_key _ _ Hm)).
  destruct (gt (key y) (key m2)) as [[]|e]; simpl; [| |done]; by apply IH.
Qed.

Lemma py_max_related l1 l2 :
  Forall2 R l1 l2 → same_end R (py_max key gt l1) (py_max key gt l2).
Proof.
  destruct 1 as [|x y l1 l2 Hxy Hl]; simpl; [done|].
  by apply max_scan_related.
Qed.
End max_scan_related.

Lemma collect_related (keep : gmap string atom → bool)
    (build : gmap string atom → gmap string atom)
    (V R : gmap string atom → gmap string atom → Prop) raw1 raw2 :
  (∀ f g, V f g → keep f = keep g) →
  (∀ f g, V f g → R (build f) (build g)) →
  Forall2 V raw1 raw2 →
  Forall2 R (collect keep build raw1) (collect keep build raw2).
Proof.
  intros Hkeep Hbuild Hraw. rewrite !collect_filter_map.
  induction Hraw as [|f g raw1 raw2 Hfg _ IH]; simpl; [constructor|].
  rewrite (Hkeep _ _ Hfg). destruct (keep g); simpl; [|done].
  constructor; [by apply Hbuild | done].
Qed.

Lemma select_url_related {K : Type} (key : gmap string atom → K) gt l1 l2 :
  Forall2 (λ c1 c2, key c1 = key c2 ∧ c1 !! "url" = c2 !! "url") l1 l2 →
  select_url key gt l1 = select_url key gt l2.
Proof.
  intros Hl.
  pose proof (py_max_related key gt _ (λ x y H, proj1 H) l1 l2 Hl) as Hend.
  destruct Hl as [|c1 c2 l1 l2 Hc Hl]; [done|].
  unfold select_url.
  destruct (py_max key gt (c1 :: l1)) as [a|e1],
           (py_max key gt (c2 :: l2)) as [b|e2]; simpl in *; try done.
  - unfold py_index. destruct Hend as [_ Hurl]. by rewrite Hurl.
  - by rewrite Hend.
Qed.

(** X17.  The selection reads nothing of a format entry but its codecs,
    its URL and its sample rate (audio) or height and frame rate (video):
    two lists of entries that agree on these fields, entry by entry, give
    the same selected URL or the same exception, whatever their file
    sizes, extensions, bit rates or identifiers are. *)
Theorem selection_reads_codecs_quality_and_url raw1 raw2 :
  (Forall2 (λ f g, audio_view f = audio_view g) raw1 raw2 →
   select_url audio_key atom_gt (audio_formats raw1)
   = select_url audio_key atom_gt (audio_formats raw2))
  ∧ (Forall2 (λ f g, video_view f = video_view g) raw1 raw2 →
     select_url video_key pair_gt (video_formats raw1)
     = select_url video_key pair_gt (video_formats raw2)).
Proof.
  split; intros Hraw; apply select_url_related.
  - eapply collect_related; [| |exact Hraw].
    + intros f g [= Ha Hv _ _]. unfold is_audio_only. by rewrite Ha, Hv.
    + intros f g [= _ _ Hasr Hurl]. unfold audio_key.
      by rewrite !audio_candidate_asr, !audio_candidate_url, Hasr, Hurl.
  - eapply collect_related; [| |exact Hraw].
    + intros f g [= Ha Hv _ _ _]. unfold is_muxed. by rewrite Ha, Hv.
    + intros f g [= _ _ Hh Hf Hurl]. unfold video_key.
      by rewrite !video_candidate_height, !video_candidate_fps,
        !video_candidate_url, Hh, Hf, Hurl.
Qed.

Lemma selection_reads_codecs_quality_and_url_witness :
  let small : gmap string atom :=
    py_dict [("format_id", AStr "251"); ("acodec", AStr "opus");
             ("vcodec", AStr "none"); ("asr", AInt 48000);
             ("filesize", AInt 1000); ("url", AStr "https://cdn.example/a")] in
  let large : gmap string atom :=
    py_dict [("format_id", AStr "251-drc"); ("acodec", AStr "opus");
             ("vcodec", AStr "none"); ("asr", AInt 48000);
             ("filesize", AInt 99000000); ("ext", AStr "webm");
             ("url", AStr "https://cdn.example/a")] in
  select_url audio_key atom_gt (audio_formats [Sample.audio_44100; small])
  = select_url audio_key atom_gt (audio_formats [Sample.audio_44100; large]).
Proof.
  intros small large.
  apply (proj1 (selection_reads_codecs_quality_and_url
                  [Sample.audio_44100; small] [Sample.audio_44100; large])).
  repeat constructor.
Defined.

Lemma answers_have_fixed_keys_witness :
  let info := Sample.info_of [Sample.video_720p30; Sample.video_1080p24] in
  let ydl := Sample.ydl_returning info in
  let result :=
    media_result info "video" (AStr "https://cdn.example/v1080")
      (video_formats [Sample.video_720p30; Sample.video_1080p24]) in
  dom (resp_body (jsonify result 200)) = result_keys
  ∧ dom (resp_body (jsonify (delete "stream_url" result) 200))
    = result_keys ∖ {["stream_url"]}.
Proof.
  intros info ydl result. split.
  - apply (proj1 (answers_have_fixed_keys ydl None)
             (Sample.download_of "video") [] _ [Sample.page]).
    + vm_compute. reflexivity.
    + reflexivity.
  - apply (proj1 (proj2 (answers_have_fixed_keys ydl None))
             {| info_api_key := Some "mera-secret-key";
                info_url := Some Sample.page_url |} [] _ [Sample.page]).
    + vm_compute. reflexivity.
    + reflexivity.
Defined.

(** ** A type that is not a string *)

(** C8 (the code departs from the claim on ["type"] values that are not
    strings).  [download] means to answer 400 "Invalid 'type'. Use
    'audio' or 'video'." to every type outside the two it accepts, but it
    calls [.lower()] on the value first: with the right key and a JSON
    object whose ["type"] is present and not a string (a number, a list,
    [null], ...), the call raises an [AttributeError] and the answer is
    500 "An unexpected error occurred", not 400, whatever the ["url"]
    is; yt-dlp is not called. *)
Theorem type_that_is_not_a_string_is_answered_500 ydl env request d v t :
  authenticated env request d →
  d !! "type" = Some v →
  ¬ is_str v →
  ∃ resp,
    download ydl env request t = (Return resp, t)
    ∧ resp_status resp = 500%Z
    ∧ resp_body resp !! "error"
      = Some (PAtom (AStr "An unexpected error occurred"))
    ∧ resp_body resp !! "details"
      = Some (PAtom (AStr ("'" +:+ type_name v
                           +:+ "' object has no attribute 'lower'"))).
Proof.
  intros [Hkey Hjson] Hty Hstr.
  exists (unexpected_error
            ("'" +:+ type_name v +:+ "' object has no attribute 'lower'")).
  split; [|split; [done|split]].
  - enter_download Hkey. rewrite Hjson. simpl.
    rewrite (dict_with_key_nonempty d _ _ Hty). simpl. rewrite Hty. simpl.
    destruct v as [[| | |s]| |]; try done.
    destruct Hstr. by exists s.
  - unfold unexpected_error, jsonify, py_dict. simpl. by simplify_map_eq.
  - unfold unexpected_error, jsonify, py_dict. simpl. by simplify_map_eq.
Qed.

Lemma type_that_is_not_a_string_is_answered_500_witness :
  let ydl := Sample.ydl_returning
               (Sample.info_of [Sample.audio_44100; Sample.audio_48000]) in
  let body : gmap string pyval :=
    py_dict [("url", Sample.page); ("type", PAtom (AInt 5))] in
  ∃ resp,
    download ydl None
      {| dl_api_key := Some "mera-secret-key"; dl_json := Return (PDict body) |}
      []
    = (Return resp, [])
    ∧ resp_status resp = 500%Z
    ∧ resp_body resp !! "error"
      = Some (PAtom (AStr "An unexpected error occurred"))
    ∧ resp_body resp !! "details"
      = Some (PAtom (AStr ("'" +:+ type_name (PAtom (AInt 5))
                           +:+ "' object has no attribute 'lower'"))).
Proof.
  intros ydl body.
  apply (type_that_is_not_a_string_is_answered_500 ydl None _ body
           (PAtom (AInt 5)) []).
  - split; reflexivity.
  - vm_compute. reflexivity.
  - intros [s Hs]. discriminate Hs.
Defined.

(** The same request, evaluated: the answer and its details. *)
Example numeric_type_answer :
  download
    (Sample.ydl_returning
       (Sample.info_of [Sample.audio_44100; Sample.audio_48000]))
    None
    {| dl_api_key := Some "mera-secret-key";
       dl_json := Return (PDict (py_dict [("url", Sample.page);
                                          ("type", PAtom (AInt 5))])) |}
    []
  = (Return (unexpected_error "'int' object has no attribute 'lower'"), []).
Proof. vm_compute. reflexivity. Qed.
